(** * BRAS bandwidth utilization dashboard: the reconciliation pipeline

    A shallow embedding of [app.py]: the two loaders ([load_bras_data],
    [load_aaa_data]), the reconciler ([combine_data]), the KPI extraction of
    [main] and the line series of [create_combined_chart].

    Conventions of the embedding.
    - A pandas column of text holds [option string] cells, [None] being the
      missing value (NaN); a numeric column holds [float64] cells.
    - Floating point numbers are exact rationals ([Q]); a missing number
      (NaN) is [None].  Rounding is not modelled.
    - A pandas [Timestamp] is the number of nanoseconds since 1970-01-01,
      as in [datetime64[ns]].
    - A Python exception is a value of [exn]; code inside [try] runs in the
      [result] monad and the handler is written out.
    - [st.error] calls are collected in the [reported] field of an outcome. *)

From Stdlib Require Import ZArith QArith Qround List String Ascii Bool Lia.
From Stdlib Require Import Permutation Sorting.Sorted DecimalString.
From Stdlib Require DecimalPos DecimalN.
Import ListNotations.

Local Open Scope string_scope.
Local Open Scope Z_scope.

(** ** Python strings *)

Module PyStr.

(** [s.split(c)[0]]: the text before the first occurrence of [c]. *)
Fixpoint split_first (c : ascii) (s : string) : string :=
  match s with
  | EmptyString => EmptyString
  | String a rest =>
      if Ascii.eqb a c then EmptyString else String a (split_first c rest)
  end.

(** [s.replace(c, '')] for a one-character pattern. *)
Fixpoint remove_char (c : ascii) (s : string) : string :=
  match s with
  | EmptyString => EmptyString
  | String a rest =>
      if Ascii.eqb a c then remove_char c rest
      else String a (remove_char c rest)
  end.

(** [s.startswith(p)]. *)
Definition startswith (p s : string) : bool := String.prefix p s.

(** [s.endswith(p)]. *)
Definition endswith (p s : string) : bool :=
  (String.length p <=? String.length s)%nat
  && String.eqb
       (String.substring (String.length s - String.length p)
                         (String.length p) s) p.

(** [p in s], also [Series.str.contains(p)] for a pattern without regex
    metacharacters. *)
Fixpoint contains (p s : string) : bool :=
  String.prefix p s
  || match s with
     | EmptyString => false
     | String _ rest => contains p rest
     end.

(** [s.replace(pat, rep)] for a non-empty [pat]: occurrences are replaced
    left to right without overlap.  [skip] counts the characters of a
    match that are still to be dropped. *)
Fixpoint replace_from (pat rep : string) (skip : nat) (s : string) : string :=
  match s with
  | EmptyString => EmptyString
  | String a rest =>
      match skip with
      | S k => replace_from pat rep k rest
      | O =>
          if String.prefix pat s
          then rep ++ replace_from pat rep (String.length pat - 1) rest
          else String a (replace_from pat rep 0 rest)
      end
  end.

Definition replace (pat rep s : string) : string := replace_from pat rep 0 s.

Definition is_digit (a : ascii) : bool :=
  let n := N_of_ascii a in ((48 <=? n) && (n <=? 57))%N.

Definition is_space (a : ascii) : bool :=
  let n := N_of_ascii a in ((n =? 32) || ((9 <=? n) && (n <=? 13)))%N.

(** Every character is a decimal digit. *)
Fixpoint all_digits (s : string) : bool :=
  match s with
  | EmptyString => true
  | String a rest => is_digit a && all_digits rest
  end.

(** The longest prefix of decimal digits, the match of [\d*]. *)
Fixpoint take_digits (s : string) : string :=
  match s with
  | EmptyString => EmptyString
  | String a rest =>
      if is_digit a then String a (take_digits rest) else EmptyString
  end.

Fixpoint drop (n : nat) (s : string) : string :=
  match n, s with
  | O, _ => s
  | S k, EmptyString => EmptyString
  | S k, String _ rest => drop k rest
  end.

(** A match of the regular expression [BRAS\d+] anchored at the start of
    [s]; [\d+] is greedy. *)
Definition match_bras_here (s : string) : option string :=
  if String.prefix "BRAS" s then
    match take_digits (drop 4 s) with
    | EmptyString => None
    | ds => Some ("BRAS" ++ ds)
    end
  else None.

(** [Series.str.extract(r'(BRAS\d+)')] on one cell: the leftmost match. *)
Fixpoint extract_bras (s : string) : option string :=
  match match_bras_here s with
  | Some t => Some t
  | None =>
      match s with
      | EmptyString => None
      | String _ rest => extract_bras rest
      end
  end.

Fixpoint lstrip (s : string) : string :=
  match s with
  | EmptyString => EmptyString
  | String a rest => if is_space a then lstrip rest else s
  end.

Fixpoint rev_acc (s acc : string) : string :=
  match s with
  | EmptyString => acc
  | String a rest => rev_acc rest (String a acc)
  end.

Definition rev (s : string) : string := rev_acc s EmptyString.

(** [s.strip()]. *)
Definition strip (s : string) : string := rev (lstrip (rev (lstrip s))).

Definition lower_ascii (a : ascii) : ascii :=
  let n := N_of_ascii a in
  if ((65 <=? n) && (n <=? 90))%N then ascii_of_N (n + 32) else a.

Fixpoint lower (s : string) : string :=
  match s with
  | EmptyString => EmptyString
  | String a rest => String (lower_ascii a) (lower rest)
  end.

(** The value of a non-empty string of decimal digits. *)
Fixpoint digits_value (acc : Z) (s : string) : option Z :=
  match s with
  | EmptyString => Some acc
  | String a rest =>
      if is_digit a
      then digits_value (10 * acc + (Z.of_N (N_of_ascii a) - 48)) rest
      else None
  end.

Definition nat_digits (s : string) : option Z :=
  match s with
  | EmptyString => None
  | _ => digits_value 0 s
  end.

(** [str(n)] for a non-negative integer. *)
Definition of_Z (n : Z) : string :=
  NilZero.string_of_uint (N.to_uint (Z.to_N n)).

(** [n] printed on at least [w] digits, padded with zeros (as [%02d]). *)
Fixpoint zeros (k : nat) : string :=
  match k with
  | O => EmptyString
  | S k' => String "0" (zeros k')
  end.

Definition zero_pad (w : nat) (n : Z) : string :=
  let s := of_Z n in
  zeros (w - String.length s)%nat ++ s.

End PyStr.

(** ** Exceptions *)

Inductive exn : Type :=
| ValueError        (* [float], [strptime], [pd.to_datetime] on bad text *)
| AttributeError    (* attribute access on [None] *)
| OutOfBounds.      (* [OutOfBoundsDatetime] *)

Inductive result (A : Type) : Type :=
| Ok (a : A)
| Raise (e : exn).

Arguments Ok {A} a.
Arguments Raise {A} e.

Definition bind {A B : Type} (m : result A) (k : A -> result B) : result B :=
  match m with
  | Ok a => k a
  | Raise e => Raise e
  end.

Notation "x <- m ;; k" := (bind m (fun x => k))
  (at level 61, m at next level, right associativity).

(** A column-wise conversion: the first cell that raises aborts the whole
    column. *)
Fixpoint mapM {A B : Type} (f : A -> result B) (l : list A) : result (list B) :=
  match l with
  | [] => Ok []
  | a :: rest =>
      b <- f a ;;
      bs <- mapM f rest ;;
      Ok (b :: bs)
  end.

(** ** Numbers *)

(** A [float64] cell; [None] is NaN. *)
Definition float64 : Type := option Q.

Module PyNum.
Import PyStr.

(** Unsigned decimal text: digits with at most one point and at least one
    digit. *)
Definition unsigned_decimal (s : string) : option Q :=
  let ip := split_first "." s in
  if (String.length ip =? String.length s)%nat then
    match nat_digits s with
    | Some n => Some (inject_Z n)
    | None => None
    end
  else
    let fp := drop (S (String.length ip)) s in
    match ip, fp with
    | EmptyString, EmptyString => None
    | _, _ =>
        match digits_value 0 ip, digits_value 0 fp with
        | Some i, Some f =>
            Some (inject_Z i
                  + Qmake f (Pos.pow 10 (Pos.of_nat (String.length fp))))%Q
        | _, _ => None
        end
    end.

(** [float(s)] on the decimal fragment of its grammar: surrounding
    whitespace, an optional sign, digits with an optional point, and the
    text [nan].  Exponents, infinities and digit-group underscores are
    outside the fragment and raise here. *)
Definition py_float (s : string) : result float64 :=
  let t := strip s in
  if String.eqb (lower t) "nan" then Ok None
  else
    let '(neg, body) :=
      match t with
      | String "-" rest => (true, rest)
      | String "+" rest => (false, rest)
      | _ => (false, t)
      end in
    match unsigned_decimal body with
    | Some q => Ok (Some (if neg then Qopp q else q))
    | None => Raise ValueError
    end.

(** [pd.to_numeric(cell, errors='coerce')]: text that is not a number
    becomes NaN. *)
Definition to_numeric_coerce (s : string) : float64 :=
  match py_float s with
  | Ok v => v
  | Raise _ => None
  end.

(** [Series.fillna(v)] on one cell. *)
Definition fillna (v : Q) (x : float64) : Q :=
  match x with
  | Some q => q
  | None => v
  end.

(** The larger of two cells, NaN being skipped ([skipna=True]). *)
Definition nanmax2 (x y : float64) : float64 :=
  match x, y with
  | None, _ => y
  | _, None => x
  | Some a, Some b => if Qle_bool a b then Some b else Some a
  end.

(** [max] of a group: NaN when the group holds no number. *)
Definition nanmax (l : list float64) : float64 := fold_right nanmax2 None l.

End PyNum.

(** ** Calendar and timestamps *)

Module Calendar.
Import PyStr.

(** Days between 1970-01-01 and the civil date [y]-[m]-[d] of the
    proleptic Gregorian calendar. *)
Definition days_from_civil (y m d : Z) : Z :=
  let y' := if m <=? 2 then y - 1 else y in
  let era := y' / 400 in
  let yoe := y' - era * 400 in
  let mp := (m + 9) mod 12 in
  let doy := (153 * mp + 2) / 5 + d - 1 in
  let doe := yoe * 365 + yoe / 4 - yoe / 100 + doy in
  era * 146097 + doe - 719468.

(** The civil date, [(year, month, day)], of a day count since
    1970-01-01. *)
Definition civil_from_days (z : Z) : Z * Z * Z :=
  let z' := z + 719468 in
  let era := z' / 146097 in
  let doe := z' - era * 146097 in
  let yoe := (doe - doe / 1460 + doe / 36524 - doe / 146096) / 365 in
  let y := yoe + era * 400 in
  let doy := doe - (365 * yoe + yoe / 4 - yoe / 100) in
  let mp := (5 * doy + 2) / 153 in
  let d := doy - (153 * mp + 2) / 5 + 1 in
  let m := if mp <? 10 then mp + 3 else mp - 9 in
  (if m <=? 2 then y + 1 else y, m, d).

Definition is_leap (y : Z) : bool :=
  ((y mod 4 =? 0) && negb (y mod 100 =? 0)) || (y mod 400 =? 0).

Definition days_in_month (y m : Z) : Z :=
  if m =? 2 then (if is_leap y then 29 else 28)
  else if (m =? 4) || (m =? 6) || (m =? 9) || (m =? 11) then 30
  else 31.

Definition valid_date (y m d : Z) : bool :=
  (1 <=? m) && (m <=? 12) && (1 <=? d) && (d <=? days_in_month y m).

(** A pandas [Timestamp]: nanoseconds since 1970-01-01T00:00:00. *)
Definition Timestamp : Type := Z.

Definition ns_per_second : Z := 1000000000.
Definition ns_per_day : Z := 86400 * ns_per_second.

(** The representable range of [datetime64[ns]]; the least [int64] is
    reserved for NaT. *)
Definition in_bounds (t : Z) : bool :=
  (- 9223372036854775807 <=? t) && (t <=? 9223372036854775807).

Definition checked (t : Z) : result Timestamp :=
  if in_bounds t then Ok t else Raise OutOfBounds.

(** [datetime(y, m, d, hh, mm, ss)] as a timestamp. *)
Definition of_civil (y m d hh mm ss : Z) : Z :=
  days_from_civil y m d * ns_per_day
  + ((hh * 60 + mm) * 60 + ss) * ns_per_second.

Definition date_of (t : Timestamp) : Z * Z * Z :=
  civil_from_days (t / ns_per_day).

Definition year_of (t : Timestamp) : Z := fst (fst (date_of t)).
Definition month_of (t : Timestamp) : Z := snd (fst (date_of t)).

(** A monthly period, [Period[M]], as [(year, month)]. *)
Definition Period : Type := (Z * Z)%type.

(** [Series.dt.to_period('M')] on one cell. *)
Definition to_period_M (t : Timestamp) : Period := (year_of t, month_of t).

(** [Series.dt.to_timestamp()] on a monthly period: the first instant of
    the month. *)
Definition to_timestamp (p : Period) : Timestamp :=
  of_civil (fst p) (snd p) 1 0 0 0.

(** The first day of the month of day [z] falls in that month. *)
Definition month_start_ok (z : Z) : bool :=
  let '(y, m, _) := civil_from_days z in
  let '(y', m', _) := civil_from_days (days_from_civil y m 1) in
  (y' =? y) && (m' =? m).

Definition month_abbr (m : Z) : string :=
  match m with
  | 1 => "Jan" | 2 => "Feb" | 3 => "Mar" | 4 => "Apr"
  | 5 => "May" | 6 => "Jun" | 7 => "Jul" | 8 => "Aug"
  | 9 => "Sep" | 10 => "Oct" | 11 => "Nov" | 12 => "Dec"
  | _ => ""
  end.

(** The month number of an abbreviated month name; [strptime] matches
    [%b] without regard to case. *)
Definition month_of_abbr (s : string) : option Z :=
  let l := lower s in
  if String.eqb l "jan" then Some 1 else
  if String.eqb l "feb" then Some 2 else
  if String.eqb l "mar" then Some 3 else
  if String.eqb l "apr" then Some 4 else
  if String.eqb l "may" then Some 5 else
  if String.eqb l "jun" then Some 6 else
  if String.eqb l "jul" then Some 7 else
  if String.eqb l "aug" then Some 8 else
  if String.eqb l "sep" then Some 9 else
  if String.eqb l "oct" then Some 10 else
  if String.eqb l "nov" then Some 11 else
  if String.eqb l "dec" then Some 12 else None.

(** The label of a calendar month, as [%b %Y] prints it. *)
Definition month_label (y m : Z) : string :=
  month_abbr m ++ " " ++ of_Z y.

(** [t.strftime('%b %Y')]. *)
Definition strftime_b_Y (t : Timestamp) : string :=
  month_label (year_of t) (month_of t).

(** [datetime.strptime(s, '%b-%y')]: three letters of a month name, a
    hyphen and two digits, nothing else; years 69 to 99 are in the 1900s,
    00 to 68 in the 2000s.  The result is the first instant of the
    month. *)
Definition strptime_b_y (s : string) : result Timestamp :=
  if (String.length s =? 6)%nat
     && String.eqb (String.substring 3 1 s) "-" then
    match month_of_abbr (String.substring 0 3 s),
          nat_digits (String.substring 4 2 s) with
    | Some m, Some yy =>
        Ok (of_civil (if yy <=? 68 then 2000 + yy else 1900 + yy) m 1 0 0 0)
    | _, _ => Raise ValueError
    end
  else Raise ValueError.

(** A field of exactly [w] decimal digits starting at position [i]. *)
Definition field (i w : nat) (s : string) : option Z :=
  let f := String.substring i w s in
  if (String.length f =? w)%nat then nat_digits f else None.

Definition is_sep (i : nat) (c : string) (s : string) : bool :=
  String.eqb (String.substring i 1 s) c.

(** [pd.to_datetime(s)] on the ISO 8601 fragment of the texts it reads:
    [YYYY-MM-DD], optionally followed by a blank or [T] and [HH:MM:SS].
    The other layouts that pandas guesses are outside the fragment and
    raise here. *)
Definition to_datetime (s : string) : result Timestamp :=
  let n := String.length s in
  match field 0 4 s, field 5 2 s, field 8 2 s with
  | Some y, Some m, Some d =>
      if is_sep 4 "-" s && is_sep 7 "-" s && valid_date y m d then
        if (n =? 10)%nat then checked (of_civil y m d 0 0 0)
        else if (n =? 19)%nat
                && (is_sep 10 " " s || is_sep 10 "T" s)
                && is_sep 13 ":" s && is_sep 16 ":" s then
          match field 11 2 s, field 14 2 s, field 17 2 s with
          | Some hh, Some mm, Some ss =>
              if (hh <=? 23) && (mm <=? 59) && (ss <=? 59)
              then checked (of_civil y m d hh mm ss)
              else Raise ValueError
          | _, _, _ => Raise ValueError
          end
        else Raise ValueError
      else Raise ValueError
  | _, _, _ => Raise ValueError
  end.

(** [pd.to_datetime(x, unit='D', origin='1899-12-30')] for a finite
    float [x]: the day count of a spreadsheet serial date.  The part of a
    nanosecond left by a fractional [x] is dropped. *)
Definition of_serial (x : Q) : result Timestamp :=
  checked (days_from_civil 1899 12 30 * ns_per_day
           + Qfloor (x * inject_Z ns_per_day)).

End Calendar.

(** ** Frames, sorting and messages *)

(** What a loader hands to its caller: a [DataFrame], given by its rows, or
    Python's [None]. *)
Inductive pyobj (A : Type) : Type :=
| DataFrame (rows : list A)
| PyNone.

Arguments DataFrame {A} rows.
Arguments PyNone {A}.

(** What the file discovery of a loader finds: no candidate path exists, or
    a file with these rows. *)
Inductive source (A : Type) : Type :=
| Missing
| File (rows : list A).

Arguments Missing {A}.
Arguments File {A} rows.

(** The messages shown with [st.error]. *)
Inductive message : Type :=
| BrasNotFound
| BrasLoadError (e : exn)
| CombineError (e : exn).

(** The value a function returns together with the messages it showed. *)
Record outcome (A : Type) : Type := mkOutcome {
  value : A;
  reported : list message
}.

Arguments mkOutcome {A} value reported.
Arguments value {A} o.
Arguments reported {A} o.

Section Sort.
Context {A : Type} (leb : A -> A -> bool).

Fixpoint insert_sorted (x : A) (l : list A) : list A :=
  match l with
  | [] => [x]
  | y :: rest => if leb x y then x :: l else y :: insert_sorted x rest
  end.

(** A stable sort by [leb].  pandas sorts with an algorithm that need not
    keep the order of equal keys; the properties proved of sorted frames
    below hold of every arrangement in ascending order. *)
Definition sort_by (l : list A) : list A := fold_right insert_sorted [] l.
End Sort.

(** ** The BRAS loader *)

Module Bras.
Import PyStr PyNum Calendar.

(** A row of [combined_bw_utilization.csv].  The peak rate is the text of
    the cell after [astype(str)]. *)
Record Row : Type := mkRow {
  NE_Location : option string;
  MO_Location : option string;
  MaxSendTrafficRate_text : string;
  End_Time : option string
}.

(** [df['BRAS_Device']]. *)
Definition BRAS_Device (r : Row) : option string :=
  match NE_Location r with
  | Some s => extract_bras s
  | None => None
  end.

(** The location field holds a device tag. *)
Definition has_tag (r : Row) : bool :=
  match BRAS_Device r with
  | Some _ => true
  | None => false
  end.

(** [df['Location']]: NaN when either operand of [+] is. *)
Definition Location_key (r : Row) : option string :=
  match NE_Location r, BRAS_Device r with
  | Some s, Some dev => Some (split_first "," s ++ "_" ++ dev)
  | _, _ => None
  end.

(** [df['MO Location'].str.contains('100GE', na=False)]. *)
Definition is_100GE (r : Row) : bool :=
  match MO_Location r with
  | Some s => contains "100GE" s
  | None => false
  end.

(** One cell of [.astype(str).str.replace(',', '').astype(float)]. *)
Definition parse_rate (r : Row) : result float64 :=
  py_float (remove_char "," (MaxSendTrafficRate_text r)).

(** One cell of [pd.to_datetime(df['End Time'])] followed by
    [.dt.to_period('M')]; a missing cell gives NaT. *)
Definition parse_month (r : Row) : result (option Period) :=
  match End_Time r with
  | None => Ok None
  | Some s => t <- to_datetime s ;; Ok (Some (to_period_M t))
  end.

(** A row of the frame once the numeric and date columns are converted. *)
Record Reading : Type := mkReading {
  rd_Location : option string;
  rd_Rate : float64;
  rd_Capacity : Q;
  rd_Month : option Period
}.

Definition Key : Type := (Period * string)%type.

Definition key_eq_dec (a b : Key) : {a = b} + {a <> b}.
Proof. repeat decide equality. Defined.

Definition period_leb (p q : Period) : bool :=
  (fst p <? fst q) || ((fst p =? fst q) && (snd p <=? snd q)).

Definition period_eqb (p q : Period) : bool :=
  (fst p =? fst q) && (snd p =? snd q).

(** The order of group keys: by month, then by location. *)
Definition key_leb (a b : Key) : bool :=
  if period_eqb (fst a) (fst b) then String.leb (snd a) (snd b)
  else period_leb (fst a) (fst b).

(** The group key of a reading; a reading with a missing key belongs to
    no group ([dropna=True]). *)
Definition group_key (x : Reading) : option Key :=
  match rd_Month x, rd_Location x with
  | Some p, Some l => Some (p, l)
  | _, _ => None
  end.

Definition in_group (k : Key) (x : Reading) : bool :=
  match group_key x with
  | Some k' => if key_eq_dec k' k then true else false
  | None => false
  end.

Fixpoint present_keys (df : list Reading) : list Key :=
  match df with
  | [] => []
  | x :: rest =>
      match group_key x with
      | Some k => k :: present_keys rest
      | None => present_keys rest
      end
  end.

(** The keys of [df.groupby(['Month', 'Location'])]: each once, in
    ascending order. *)
Definition group_keys (df : list Reading) : list Key :=
  sort_by key_leb (nodup key_eq_dec (present_keys df)).

(** The aggregation ['first']: the first value of the group. *)
Definition first (l : list Q) : float64 :=
  match l with
  | [] => None
  | c :: _ => Some c
  end.

Definition fdiv (x y : float64) : float64 :=
  match x, y with
  | Some a, Some b => Some (a / b)%Q
  | _, _ => None
  end.

Definition fmul (x : float64) (c : Q) : float64 :=
  match x with
  | Some a => Some (a * c)%Q
  | None => None
  end.

(** A row of [monthly_bras]. *)
Record Monthly : Type := mkMonthly {
  Month : Timestamp;
  Location : string;
  MaxSendTrafficRate : float64;
  Total_Capacity : float64;
  Utilization_Pct : float64;
  Month_Name : string
}.

(** The row of one group: the aggregation, the utilization and the two
    display columns. *)
Definition monthly_row (df : list Reading) (k : Key) : Monthly :=
  let grp := filter (in_group k) df in
  let peak := nanmax (map rd_Rate grp) in
  let cap := first (map rd_Capacity grp) in
  let month := to_timestamp (fst k) in
  {| Month := month;
     Location := snd k;
     MaxSendTrafficRate := peak;
     Total_Capacity := cap;
     Utilization_Pct := fmul (fdiv peak cap) 100;
     Month_Name := strftime_b_Y month |}.

Definition monthly_bras (df : list Reading) : list Monthly :=
  map (monthly_row df) (group_keys df).

Fixpoint zip_readings (df : list Row) (rates : list float64)
         (months : list (option Period)) : list Reading :=
  match df, rates, months with
  | r :: df', x :: rates', p :: months' =>
      {| rd_Location := Location_key r;
         rd_Rate := x;
         rd_Capacity := 100000;
         rd_Month := p |} :: zip_readings df' rates' months'
  | _, _, _ => []
  end.

(** The row of the converted frame that a source row gives when both of
    its conversions go through. *)
Definition reading_of (r : Row) : Reading :=
  {| rd_Location := Location_key r;
     rd_Rate := match parse_rate r with Ok x => x | Raise _ => None end;
     rd_Capacity := 100000;
     rd_Month := match parse_month r with Ok p => p | Raise _ => None end |}.

(** The body of the [try] block once the file is read.  When no row is
    left by the interface filter the [if] is skipped and the function
    ends without a [return]: its value is [None]. *)
Definition load_bras_frame (rows : list Row) : result (pyobj Monthly) :=
  let df := filter is_100GE rows in
  match df with
  | [] => Ok PyNone
  | _ =>
      rates <- mapM parse_rate df ;;
      months <- mapM parse_month df ;;
      Ok (DataFrame (monthly_bras (zip_readings df rates months)))
  end.

Definition load_bras_data (src : source Row) : outcome (pyobj Monthly) :=
  match src with
  | Missing => mkOutcome (DataFrame []) [BrasNotFound]
  | File rows =>
      match load_bras_frame rows with
      | Ok v => mkOutcome v []
      | Raise e => mkOutcome (DataFrame []) [BrasLoadError e]
      end
  end.

End Bras.

(** ** The AAA loader *)

Module Aaa.
Import PyStr PyNum Calendar.

(** A row of [Monthly AAA.xlsx].  The month label is the text of the cell
    after [astype(str)]; the user quantity is the text of its cell. *)
Record Row : Type := mkRow {
  Month_Year : string;
  AAA_Location : string;
  User_Quantity : string
}.

(** The argument of [parse_date]. *)
Inductive pyval : Type :=
| PyDatetime (t : Timestamp)
| PyStr (s : string).

(** The second attempt of [parse_date]: a spreadsheet serial date.  A NaN
    gives NaT, which [notna] rejects like [None]. *)
Definition try_serial (s : string) : result (option Timestamp) :=
  x <- py_float s ;;
  match x with
  | Some q => t <- of_serial q ;; Ok (Some t)
  | None => Ok None
  end.

(** [parse_date]: the four attempts in their order; [None] when all
    fail. *)
Definition parse_date (date_val : pyval) : option Timestamp :=
  match date_val with
  | PyDatetime t => Some t
  | PyStr s =>
      match try_serial s with
      | Ok r => r
      | Raise _ =>
          match strptime_b_y s with
          | Ok t => Some t
          | Raise _ =>
              match to_datetime s with
              | Ok t => Some t
              | Raise _ => None
              end
          end
      end
  end.

(** A row of the frame the loader returns. *)
Record Monthly : Type := mkMonthly {
  Month : Timestamp;
  Month_Name : string;
  Location : string;
  AAA_Users : float64
}.

(** The columns computed for one row; [None] when the month is missing
    and the row is dropped by [df[df['Month'].notna()]]. *)
Definition monthly_row (r : Row) : option Monthly :=
  match parse_date (PyStr (replace "Aprl" "Apr" (Month_Year r))) with
  | Some t =>
      Some {| Month := t;
              Month_Name := strftime_b_Y t;
              Location := split_first "_" (AAA_Location r) ++ "_AAA";
              AAA_Users := to_numeric_coerce (User_Quantity r) |}
  | None => None
  end.

Fixpoint keep_rows (rows : list Row) : list Monthly :=
  match rows with
  | [] => []
  | r :: rest =>
      match monthly_row r with
      | Some m => m :: keep_rows rest
      | None => keep_rows rest
      end
  end.

Definition month_leb (a b : Monthly) : bool := Month a <=? Month b.

(** [load_aaa_data]: every path returns a frame.  The messages of this
    loader are not part of the embedding. *)
Definition load_aaa_data (src : source Row) : pyobj Monthly :=
  match src with
  | Missing => DataFrame []
  | File rows => DataFrame (sort_by month_leb (keep_rows rows))
  end.

End Aaa.

(** ** The reconciler *)

Module Reconcile.
Import PyNum Calendar.

(** A row of the merged frame: the join columns and the value columns of
    both sides, NaN where a side is absent. *)
Record Merged : Type := mkMerged {
  m_Month : Timestamp;
  m_Location : string;
  m_MaxSendTrafficRate : float64;
  m_Total_Capacity : float64;
  m_Utilization_Pct : float64;
  m_Month_Name : string;
  m_AAA_Users : float64
}.

(** The join key, [on=['Month', 'Month_Name', 'Location']]. *)
Definition JoinKey : Type := (Timestamp * string * string)%type.

Definition bras_key (b : Bras.Monthly) : JoinKey :=
  (Bras.Month b, Bras.Month_Name b, Bras.Location b).

Definition aaa_key (a : Aaa.Monthly) : JoinKey :=
  (Aaa.Month a, Aaa.Month_Name a, Aaa.Location a).

Definition merged_key (m : Merged) : JoinKey :=
  (m_Month m, m_Month_Name m, m_Location m).

Definition join_key_eqb (j k : JoinKey) : bool :=
  (fst (fst j) =? fst (fst k))
  && String.eqb (snd (fst j)) (snd (fst k))
  && String.eqb (snd j) (snd k).

(** The lexicographic order of join keys. *)
Definition join_key_leb (j k : JoinKey) : bool :=
  if fst (fst j) =? fst (fst k) then
    if String.eqb (snd (fst j)) (snd (fst k))
    then String.leb (snd j) (snd k)
    else String.leb (snd (fst j)) (snd (fst k))
  else fst (fst j) <? fst (fst k).

Definition left_only (b : Bras.Monthly) : Merged :=
  {| m_Month := Bras.Month b;
     m_Location := Bras.Location b;
     m_MaxSendTrafficRate := Bras.MaxSendTrafficRate b;
     m_Total_Capacity := Bras.Total_Capacity b;
     m_Utilization_Pct := Bras.Utilization_Pct b;
     m_Month_Name := Bras.Month_Name b;
     m_AAA_Users := None |}.

Definition both (b : Bras.Monthly) (a : Aaa.Monthly) : Merged :=
  {| m_Month := Bras.Month b;
     m_Location := Bras.Location b;
     m_MaxSendTrafficRate := Bras.MaxSendTrafficRate b;
     m_Total_Capacity := Bras.Total_Capacity b;
     m_Utilization_Pct := Bras.Utilization_Pct b;
     m_Month_Name := Bras.Month_Name b;
     m_AAA_Users := Aaa.AAA_Users a |}.

Definition right_only (a : Aaa.Monthly) : Merged :=
  {| m_Month := Aaa.Month a;
     m_Location := Aaa.Location a;
     m_MaxSendTrafficRate := None;
     m_Total_Capacity := None;
     m_Utilization_Pct := None;
     m_Month_Name := Aaa.Month_Name a;
     m_AAA_Users := Aaa.AAA_Users a |}.

Definition matches_of (b : Bras.Monthly) (R : list Aaa.Monthly)
  : list Aaa.Monthly :=
  filter (fun a => join_key_eqb (bras_key b) (aaa_key a)) R.

(** The rows a left row contributes: one per matching right row, or the
    row alone. *)
Definition left_rows (R : list Aaa.Monthly) (b : Bras.Monthly)
  : list Merged :=
  match matches_of b R with
  | [] => [left_only b]
  | ms => map (both b) ms
  end.

Definition unmatched (L : list Bras.Monthly) (a : Aaa.Monthly) : bool :=
  negb (existsb (fun b => join_key_eqb (bras_key b) (aaa_key a)) L).

(** The rows of the outer join: those of the left rows, then the right
    rows that match no left row. *)
Definition joined (L : list Bras.Monthly) (R : list Aaa.Monthly)
  : list Merged :=
  (flat_map (left_rows R) L ++ map right_only (filter (unmatched L) R))%list.

(** [pd.merge(L, R, on=..., how='outer')]: the union of the keys of both
    frames, in the lexicographic order of the keys. *)
Definition merge_outer (L : list Bras.Monthly) (R : list Aaa.Monthly)
  : list Merged :=
  sort_by (fun x y => join_key_leb (merged_key x) (merged_key y))
          (joined L R).

(** A row of the Unified Record: the merged row with its missing values
    filled. *)
Record Unified : Type := mkUnified {
  Month : Timestamp;
  Location : string;
  MaxSendTrafficRate : Q;
  Total_Capacity : Q;
  Utilization_Pct : Q;
  Month_Name : string;
  AAA_Users : Q
}.

(** The four [fillna] assignments on one row. *)
Definition fill (m : Merged) : Unified :=
  {| Month := m_Month m;
     Location := m_Location m;
     MaxSendTrafficRate := fillna 0 (m_MaxSendTrafficRate m);
     Total_Capacity := fillna 100000 (m_Total_Capacity m);
     Utilization_Pct := fillna 0 (m_Utilization_Pct m);
     Month_Name := m_Month_Name m;
     AAA_Users := fillna 0 (m_AAA_Users m) |}.

(** The (month, location) key of a row, in each of the three frames. *)
Definition bras_month_loc (b : Bras.Monthly) : Timestamp * string :=
  (Bras.Month b, Bras.Location b).

Definition aaa_month_loc (a : Aaa.Monthly) : Timestamp * string :=
  (Aaa.Month a, Aaa.Location a).

Definition month_loc (u : Unified) : Timestamp * string :=
  (Month u, Location u).

Definition month_leb (x y : Unified) : bool := Month x <=? Month y.

(** [df.sort_values('Month')]. *)
Definition sort_values_Month (df : list Unified) : list Unified :=
  sort_by month_leb df.

(** [x.empty]: an attribute of a frame, an [AttributeError] on [None]. *)
Definition empty {A : Type} (x : pyobj A) : result bool :=
  match x with
  | DataFrame [] => Ok true
  | DataFrame (_ :: _) => Ok false
  | PyNone => Raise AttributeError
  end.

Definition rows_of {A : Type} (x : pyobj A) : result (list A) :=
  match x with
  | DataFrame l => Ok l
  | PyNone => Raise AttributeError
  end.

(** The body of the [try] block of [combine_data]; [or] evaluates its
    right operand only when the left one is false. *)
Definition combine_frame (bras_df : pyobj Bras.Monthly)
           (aaa_df : pyobj Aaa.Monthly) : result (list Unified) :=
  be <- empty bras_df ;;
  ae <- (if be then Ok true else empty aaa_df) ;;
  if ae then Ok []
  else
    L <- rows_of bras_df ;;
    R <- rows_of aaa_df ;;
    Ok (sort_values_Month (map fill (merge_outer L R))).

Definition combine_data (bras_df : pyobj Bras.Monthly)
           (aaa_df : pyobj Aaa.Monthly) : outcome (list Unified) :=
  match combine_frame bras_df aaa_df with
  | Ok df => mkOutcome df []
  | Raise e => mkOutcome [] [CombineError e]
  end.

(** The first three statements of [main]. *)
Definition pipeline (bras_src : source Bras.Row) (aaa_src : source Aaa.Row)
  : outcome (list Unified) :=
  combine_data (value (Bras.load_bras_data bras_src))
               (Aaa.load_aaa_data aaa_src).

End Reconcile.

(** ** KPI tiles and chart series *)

Module Dashboard.
Import PyStr Reconcile.

(** [Series.max()] of a non-empty column. *)
Definition series_max (l : list Q) : option Q :=
  match l with
  | [] => None
  | x :: rest =>
      Some (fold_left (fun acc y => if Qle_bool y acc then acc else y)
                      rest x)
  end.

(** [df.loc[df[col].idxmax()]]: the first row, in the order of the frame,
    whose value is the maximum of the column. *)
Definition loc_idxmax (metric : Unified -> Q) (df : list Unified)
  : option Unified :=
  match series_max (map metric df) with
  | Some m => find (fun r => Qeq_bool (metric r) m) df
  | None => None
  end.

(** What a KPI tile shows. *)
Record Kpi : Type := mkKpi {
  peak : Q;
  peak_month : string
}.

(** One tile: the maximum of the column divided by [unit], and the month
    label of the row that holds it; no tile for an empty sub-series. *)
Definition tile (metric : Unified -> Q) (unit : Q) (df : list Unified)
  : option Kpi :=
  match series_max (map metric df), loc_idxmax metric df with
  | Some m, Some r => Some {| peak := m / unit; peak_month := Month_Name r |}
  | _, _ => None
  end.

(** [data[data['Location'].str.startswith(region)]]. *)
Definition region_rows (data : list Unified) (region : string)
  : list Unified :=
  filter (fun r => startswith region (Location r)) data.

(** [region_data[region_data['Location'] == key]]. *)
Definition sub_series (region_data : list Unified) (key : string)
  : list Unified :=
  filter (fun r => String.eqb (Location r) key) region_data.

(** The three sub-series of a region. *)
Inductive slot : Type := BRAS01 | BRAS02 | AAA.

Definition slot_key (region : string) (s : slot) : string :=
  match s with
  | BRAS01 => region ++ "_BRAS01"
  | BRAS02 => region ++ "_BRAS02"
  | AAA => region ++ "_AAA"
  end.

Definition slot_metric (s : slot) : Unified -> Q :=
  match s with
  | AAA => AAA_Users
  | _ => MaxSendTrafficRate
  end.

(** The peak rate is shown in Gbps, the user count as it is. *)
Definition slot_unit (s : slot) : Q :=
  match s with
  | AAA => 1
  | _ => 1000
  end.

(** The KPI tile of [main] for one slot of the selected region. *)
Definition kpi (combined_df : list Unified) (region : string) (s : slot)
  : option Kpi :=
  let region_data := region_rows combined_df region in
  tile (slot_metric s) (slot_unit s) (sub_series region_data (slot_key region s)).

(** A line of the chart. *)
Record Line : Type := mkLine {
  label : string;
  points : list (string * Q)
}.

(** The condition of the scaling exception. *)
Definition scaled (region device : string) : bool :=
  String.eqb region "MDY" && endswith "BRAS02" device.

(** The text [ (x10)] with the multiplication sign U+00D7 in UTF-8. *)
Definition scale_note : string :=
  String " " (String "(" (String "195" (String "151" "10)"))).

(** The line of one device in [create_combined_chart]; no line when the
    device has no row. *)
Definition device_line (region_data : list Unified) (region device : string)
  : option Line :=
  let device_data := sort_values_Month (sub_series region_data device) in
  match device_data with
  | [] => None
  | _ =>
      let k := if scaled region device then 10%Q else 1%Q in
      Some {| label := device ++ " Utilization"
                       ++ (if scaled region device then scale_note else "");
              points := map (fun r => (Month_Name r, Utilization_Pct r * k)%Q)
                            device_data |}
  end.

(** The line of a device slot of the region. *)
Definition chart_line (data : list Unified) (region : string) (s : slot)
  : option Line :=
  device_line (region_rows data region) region (slot_key region s).

(** The utilization lines of [create_combined_chart(data, region)], in
    the order of [bras_devices]; one entry per device slot, and none at
    all when the region has no row. *)
Definition chart_lines (data : list Unified) (region : string)
  : list (option Line) :=
  match region_rows data region with
  | [] => []
  | _ => map (chart_line data region) [BRAS01; BRAS02]
  end.

End Dashboard.

(** ** The encodings of a date in the AAA source *)

Module Encoding.
Import PyStr Calendar.

(** The spreadsheet serial number of a date: its day count from
    1899-12-30. *)
Definition serial (y m d : Z) : Z :=
  days_from_civil y m d - days_from_civil 1899 12 30.

(** The text of a serial number. *)
Definition serial_text (y m d : Z) : string := of_Z (serial y m d).

(** The [Mon-YY] text of a month, as [Apr-25]. *)
Definition mon_yy_text (y m : Z) : string :=
  month_abbr m ++ "-" ++ zero_pad 2 (y mod 100).

(** The ISO text of a date, as [2025-04-01]. *)
Definition iso_text (y m d : Z) : string :=
  zero_pad 4 y ++ "-" ++ zero_pad 2 m ++ "-" ++ zero_pad 2 d.

(** The month label that [parse_date] and [strftime('%b %Y')] give to a
    value of the month column; [None] when the value is unparseable. *)
Definition label_of (v : Aaa.pyval) : option string :=
  option_map strftime_b_Y (Aaa.parse_date v).

(** The month label that the loader gives to the text of a cell of the
    month column: the typo repair comes first. *)
Definition label_of_text (s : string) : option string :=
  label_of (Aaa.PyStr (replace "Aprl" "Apr" s)).

Definition is_label (expected : string) (o : option string) : bool :=
  match o with
  | Some a => String.eqb a expected
  | None => false
  end.

(** The four encodings of one date lead to the label of its month. *)
Definition agree (y m d : Z) : bool :=
  let expected := month_label y m in
  is_label expected (label_of (Aaa.PyDatetime (of_civil y m d 0 0 0)))
  && is_label expected (label_of_text (serial_text y m d))
  && is_label expected (label_of_text (mon_yy_text y m))
  && is_label expected (label_of_text (iso_text y m d)).

(** [n] printed on [w] digits is [w] decimal digits that read back as
    [n]. *)
Definition padded (w : nat) (n : Z) : bool :=
  let s := zero_pad w n in
  (String.length s =? w)%nat
  && all_digits s
  && match nat_digits s with
     | Some v => v =? n
     | None => false
     end.

(** The [Mon-YY] text of the month [m] of [y] is read, by the third attempt
    of [parse_date], as the first instant of that month. *)
Definition mon_yy_read (y m : Z) : bool :=
  match Aaa.parse_date (Aaa.PyStr (replace "Aprl" "Apr" (mon_yy_text y m)))
  with
  | Some t => t =? of_civil y m 1 0 0 0
  | None => false
  end.

Definition months : list Z := [1; 2; 3; 4; 5; 6; 7; 8; 9; 10; 11; 12].

Definition days : list Z :=
  [1; 2; 3; 4; 5; 6; 7; 8; 9; 10; 11; 12; 13; 14; 15; 16; 17; 18; 19; 20;
   21; 22; 23; 24; 25; 26; 27; 28; 29; 30; 31].

(** [agree] on every date of the year [y], for the years that a
    two-digit year denotes (1969 to 2068). *)
Definition agree_in_year (y : Z) : bool :=
  (2068 <? y)
  || forallb (fun m =>
                forallb (fun d => negb (valid_date y m d) || agree y m d)
                        days)
             months.

(** The texts of the year [y] and of its months are read back, for the
    years that a two-digit year denotes. *)
Definition texts_in_year (y : Z) : bool :=
  (2068 <? y) || (padded 4 y && forallb (mon_yy_read y) months).

End Encoding.

(** ** Checking a property on a range of integers *)

(** [forall_below k lo P]: [P] holds of the [2 ^ k] integers from [lo]. *)
Fixpoint forall_below (k : nat) (lo : Z) (P : Z -> bool) : bool :=
  match k with
  | O => P lo
  | S k' => forall_below k' lo P && forall_below k' (lo + 2 ^ Z.of_nat k') P
  end.

(** ** The end-to-end scenario *)

Module Scenario.

Definition bras_row : Bras.Row :=
  {| Bras.NE_Location := Some "Mandalay, BRAS01";
     Bras.MO_Location := Some "100GE1/0/1";
     Bras.MaxSendTrafficRate_text := "45,000";
     Bras.End_Time := Some "2025-04-15" |}.

Definition aaa_row : Aaa.Row :=
  {| Aaa.Month_Year := "Apr-25";
     Aaa.AAA_Location := "MDY_Region";
     Aaa.User_Quantity := "12000" |}.

End Scenario.

(** * Properties *)

(** ** Ranges, sorting and column conversions *)

Lemma forall_below_spec (P : Z -> bool) (k : nat) :
  forall lo z,
    forall_below k lo P = true ->
    lo <= z < lo + 2 ^ Z.of_nat k ->
    P z = true.
Proof.
  induction k as [|k IH]; intros lo z Hall Hz.
  - simpl in *. assert (z = lo) by lia. now subst.
  - cbn [forall_below] in Hall.
    apply andb_true_iff in Hall as [Hlow Hhigh].
    rewrite Nat2Z.inj_succ, Z.pow_succ_r in Hz by lia.
    destruct (Z_lt_ge_dec z (lo + 2 ^ Z.of_nat k)) as [Hlt|Hge].
    + apply (IH lo); [assumption | lia].
    + apply (IH (lo + 2 ^ Z.of_nat k)); [assumption | lia].
Qed.

Section SortFacts.
Context {A : Type} (leb : A -> A -> bool).

Lemma insert_sorted_perm (x : A) (l : list A) :
  Permutation (insert_sorted leb x l) (x :: l).
Proof.
  induction l as [|y l IH]; simpl.
  - apply Permutation_refl.
  - destruct (leb x y).
    + apply Permutation_refl.
    + eapply perm_trans; [apply perm_skip, IH | apply perm_swap].
Qed.

Lemma sort_by_perm (l : list A) : Permutation (sort_by leb l) l.
Proof.
  induction l as [|x l IH]; simpl.
  - constructor.
  - eapply perm_trans; [apply insert_sorted_perm | now apply perm_skip].
Qed.

Lemma sort_by_In (l : list A) (x : A) : In x (sort_by leb l) <-> In x l.
Proof.
  split; apply Permutation_in;
    [apply sort_by_perm | apply Permutation_sym, sort_by_perm].
Qed.

Lemma sort_by_nil (l : list A) : sort_by leb l = [] -> l = [].
Proof.
  intros H. apply Permutation_nil.
  rewrite <- H. apply sort_by_perm.
Qed.

Hypothesis leb_total : forall x y, leb x y = true \/ leb y x = true.
Hypothesis leb_trans :
  forall x y z, leb x y = true -> leb y z = true -> leb x z = true.

Lemma insert_sorted_sorted (x : A) (l : list A) :
  StronglySorted (fun a b => leb a b = true) l ->
  StronglySorted (fun a b => leb a b = true) (insert_sorted leb x l).
Proof.
  induction 1 as [|y l Hs IH Hall]; simpl.
  - repeat constructor.
  - destruct (leb x y) eqn:Hxy.
    + constructor; [now constructor|].
      constructor; [assumption|].
      eapply Forall_impl; [|exact Hall].
      intros z Hz. now apply (leb_trans x y z).
    + constructor; [assumption|].
      assert (Hyx : leb y x = true)
        by (destruct (leb_total x y); congruence).
      eapply Permutation_Forall;
        [apply Permutation_sym, insert_sorted_perm|].
      now constructor.
Qed.

Lemma sort_by_sorted (l : list A) :
  StronglySorted (fun a b => leb a b = true) (sort_by leb l).
Proof.
  induction l as [|x l IH]; simpl.
  - constructor.
  - now apply insert_sorted_sorted.
Qed.
End SortFacts.

Lemma mapM_Ok_Forall2 {A B : Type} (f : A -> result B) (l : list A) :
  forall l', mapM f l = Ok l' -> Forall2 (fun a b => f a = Ok b) l l'.
Proof.
  induction l as [|a l IH]; simpl; intros l' H.
  - inversion H. constructor.
  - destruct (f a) as [b|e] eqn:Hfa; simpl in H; [|discriminate].
    destruct (mapM f l) as [bs|e] eqn:Hl; simpl in H; [|discriminate].
    inversion H; subst. constructor; auto.
Qed.


Lemma mapM_total {A B : Type} (f : A -> result B) (l : list A) :
  (forall a, In a l -> exists b, f a = Ok b) -> exists l', mapM f l = Ok l'.
Proof.
  induction l as [|x l IH]; simpl; intros H.
  - eauto.
  - destruct (H x (or_introl eq_refl)) as [b ->]. simpl.
    destruct IH as [l' ->]; [intros; apply H; auto|]. simpl. eauto.
Qed.

(** ** A source without any 100GE interface *)



(** ** An empty side of the reconciler *)

Lemma keep_rows_none (rows : list Aaa.Row) :
  (forall r, In r rows -> Aaa.monthly_row r = None) -> Aaa.keep_rows rows = [].
Proof.
  induction rows as [|r rows IH]; simpl; intros H; [reflexivity|].
  rewrite (H r (or_introl eq_refl)). apply IH. intros; apply H; auto.
Qed.

Lemma combine_data_empty_side (bras : pyobj Bras.Monthly) (aaa : pyobj Aaa.Monthly) :
  bras = DataFrame [] \/ aaa = DataFrame [] ->
  value (Reconcile.combine_data bras aaa) = [].
Proof.
  intros [->| ->].
  - reflexivity.
  - destruct bras as [[|b L]|]; reflexivity.
Qed.

(** C7.  When one of the two frames given to [combine_data] is empty the
    Unified Record is empty; in particular, when no month label of the AAA
    source can be parsed, the AAA loader returns an empty frame and the
    pipeline an empty Unified Record, whatever the BRAS source holds. *)
Theorem C7_empty_side_gives_empty
        (bras : pyobj Bras.Monthly) (aaa : pyobj Aaa.Monthly)
        (bras_src : source Bras.Row) (aaa_rows : list Aaa.Row) :
  bras = DataFrame [] \/ aaa = DataFrame [] ->
  (forall r, In r aaa_rows ->
     Aaa.parse_date (Aaa.PyStr (PyStr.replace "Aprl" "Apr" (Aaa.Month_Year r)))
     = None) ->
  value (Reconcile.combine_data bras aaa) = []
  /\ Aaa.load_aaa_data (File aaa_rows) = DataFrame []
  /\ value (Reconcile.pipeline bras_src (File aaa_rows)) = [].
Proof.
  intros Hside Hbad.
  assert (Haaa : Aaa.load_aaa_data (File aaa_rows) = DataFrame []).
  { unfold Aaa.load_aaa_data. rewrite keep_rows_none; [reflexivity|].
    intros r Hr. unfold Aaa.monthly_row. now rewrite (Hbad r Hr). }
  split; [now apply combine_data_empty_side|].
  split; [exact Haaa|].
  unfold Reconcile.pipeline. apply combine_data_empty_side. now right.
Qed.

Lemma C7_witness :
  value (Reconcile.pipeline (File [Scenario.bras_row])
           (File [Aaa.mkRow "sometime" "MDY_Region" "12000"])) = [].
Proof.
  apply (C7_empty_side_gives_empty
           (DataFrame []) (DataFrame []) (File [Scenario.bras_row])
           [Aaa.mkRow "sometime" "MDY_Region" "12000"]).
  - left. reflexivity.
  - intros r [<-|[]]. vm_compute. reflexivity.
Defined.

(** ** Strings *)

Lemma length_append (a b : string) :
  String.length (a ++ b) = (String.length a + String.length b)%nat.
Proof. induction a as [|c a IH]; simpl; [reflexivity | now rewrite IH]. Qed.

Lemma append_empty_r (a : string) : a ++ "" = a.
Proof. induction a as [|c a IH]; simpl; [reflexivity | now rewrite IH]. Qed.

Lemma append_assoc (a b c : string) : (a ++ b) ++ c = a ++ (b ++ c).
Proof. induction a as [|x a IH]; simpl; [reflexivity | now rewrite IH]. Qed.



(** ** The scaling exception of the chart *)






(** ** KPI tiles *)




Lemma StronglySorted_filter {A : Type} (R : A -> A -> Prop) (p : A -> bool)
      (l : list A) :
  StronglySorted R l -> StronglySorted R (filter p l).
Proof.
  induction 1 as [|a l Hs IH Hall]; simpl; [constructor|].
  destruct (p a); [|assumption].
  constructor; [assumption|].
  apply Forall_forall. intros x Hx. apply filter_In in Hx as [Hx _].
  revert x Hx. now apply Forall_forall.
Qed.


(** The Unified Record is in ascending order of month. *)
Lemma combine_data_sorted (bras : pyobj Bras.Monthly) (aaa : pyobj Aaa.Monthly) :
  StronglySorted (fun a b => Reconcile.Month a <= Reconcile.Month b)
                 (value (Reconcile.combine_data bras aaa)).
Proof.
  assert (Hsort : forall l,
             StronglySorted (fun a b => Reconcile.Month a <= Reconcile.Month b)
                            (Reconcile.sort_values_Month l)).
  { intros l.
    eapply (StronglySorted_ind
              (fun l' => StronglySorted
                           (fun a b => Reconcile.Month a <= Reconcile.Month b) l'));
      [constructor | | apply (sort_by_sorted Reconcile.month_leb)].
    - intros a l' _ IH Hall. constructor; [exact IH|].
      eapply Forall_impl; [|exact Hall].
      intros b Hb. now apply Z.leb_le.
    - intros x y. unfold Reconcile.month_leb.
      rewrite !Z.leb_le. lia.
    - intros x y z. unfold Reconcile.month_leb.
      rewrite !Z.leb_le. lia. }
  unfold Reconcile.combine_data, Reconcile.combine_frame.
  destruct bras as [[|b L]|]; simpl; try constructor.
  destruct aaa as [[|a R]|]; simpl; try constructor.
  apply Hsort.
Qed.




(** ** The outer join *)

Lemma join_key_eqb_eq (j k : Reconcile.JoinKey) :
  Reconcile.join_key_eqb j k = true <-> j = k.
Proof.
  destruct j as [[m n] l], k as [[m' n'] l'].
  unfold Reconcile.join_key_eqb. simpl.
  rewrite !andb_true_iff, Z.eqb_eq, !String.eqb_eq.
  split; [intros [[-> ->] ->]; reflexivity | intros H; inversion H; auto].
Qed.

Lemma In_left_rows (R : list Aaa.Monthly) (b : Bras.Monthly)
      (m : Reconcile.Merged) :
  In m (Reconcile.left_rows R b) <->
  (Reconcile.matches_of b R = [] /\ m = Reconcile.left_only b)
  \/ (exists a, In a R /\ Reconcile.bras_key b = Reconcile.aaa_key a
                /\ m = Reconcile.both b a).
Proof.
  unfold Reconcile.left_rows.
  destruct (Reconcile.matches_of b R) as [|a0 ms] eqn:Hms.
  - simpl. split.
    + intros [<-|[]]. now left.
    + intros [[_ ->]|[a [Ha [Hk _]]]]; [now left|].
      exfalso.
      assert (Hin : In a (Reconcile.matches_of b R)).
      { apply filter_In. split; [assumption|]. now apply join_key_eqb_eq. }
      now rewrite Hms in Hin.
  - rewrite in_map_iff. split.
    + intros [a [<- Ha]]. right. exists a.
      rewrite <- Hms in Ha. apply filter_In in Ha as [Ha Hk].
      apply join_key_eqb_eq in Hk. auto.
    + intros [[Hnil _]|[a [Ha [Hk ->]]]]; [discriminate|].
      exists a. split; [reflexivity|].
      rewrite <- Hms. apply filter_In. split; [assumption|].
      now apply join_key_eqb_eq.
Qed.

Lemma unmatched_spec (L : list Bras.Monthly) (a : Aaa.Monthly) :
  Reconcile.unmatched L a = true <->
  forall b, In b L -> Reconcile.bras_key b <> Reconcile.aaa_key a.
Proof.
  unfold Reconcile.unmatched. rewrite negb_true_iff. split.
  - intros Hex b Hb Hk.
    assert (Ht : existsb (fun b0 => Reconcile.join_key_eqb
                                      (Reconcile.bras_key b0)
                                      (Reconcile.aaa_key a)) L = true).
    { apply existsb_exists. exists b. split; [assumption|].
      now apply join_key_eqb_eq. }
    congruence.
  - intros Hall.
    destruct (existsb _ L) eqn:Hex; [|reflexivity].
    apply existsb_exists in Hex as [b [Hb Hk]].
    apply join_key_eqb_eq in Hk. now destruct (Hall b Hb).
Qed.

(** Where a row of the outer join comes from. *)
Lemma In_joined (L : list Bras.Monthly) (R : list Aaa.Monthly)
      (m : Reconcile.Merged) :
  In m (Reconcile.joined L R) <->
  (exists b, In b L /\ Reconcile.matches_of b R = []
             /\ m = Reconcile.left_only b)
  \/ (exists b a, In b L /\ In a R
                  /\ Reconcile.bras_key b = Reconcile.aaa_key a
                  /\ m = Reconcile.both b a)
  \/ (exists a, In a R
                /\ (forall b, In b L ->
                      Reconcile.bras_key b <> Reconcile.aaa_key a)
                /\ m = Reconcile.right_only a).
Proof.
  unfold Reconcile.joined. rewrite in_app_iff, in_flat_map, in_map_iff.
  split.
  - intros [[b [Hb Hm]]|[a [<- Ha]]].
    + apply In_left_rows in Hm as [[Hnil ->]|[a [Ha [Hk ->]]]].
      * left. eauto.
      * right; left. exists b, a. auto.
    + right; right. apply filter_In in Ha as [Ha Hun].
      exists a. split; [assumption|]. split; [|reflexivity].
      now apply unmatched_spec.
  - intros [[b [Hb [Hnil ->]]]|[[b [a [Hb [Ha [Hk ->]]]]]|[a [Ha [Hun ->]]]]].
    + left. exists b. split; [assumption|]. apply In_left_rows. now left.
    + left. exists b. split; [assumption|]. apply In_left_rows.
      right. eauto.
    + right. exists a. split; [reflexivity|]. apply filter_In.
      split; [assumption|]. now apply unmatched_spec.
Qed.

(** The rows of the Unified Record of two non-empty frames are the filled
    rows of the outer join. *)
Lemma In_combine_data (L : list Bras.Monthly) (R : list Aaa.Monthly)
      (u : Reconcile.Unified) :
  L <> [] -> R <> [] ->
  (In u (value (Reconcile.combine_data (DataFrame L) (DataFrame R))) <->
   exists m, In m (Reconcile.joined L R) /\ u = Reconcile.fill m).
Proof.
  intros HL HR.
  destruct L as [|b L]; [congruence|]. destruct R as [|a R]; [congruence|].
  unfold Reconcile.combine_data, Reconcile.combine_frame. simpl value.
  unfold Reconcile.sort_values_Month, Reconcile.merge_outer.
  rewrite sort_by_In, in_map_iff.
  split; intros [m [H1 H2]]; exists m.
  - apply sort_by_In in H2. auto.
  - split; [auto|]. now apply sort_by_In.
Qed.

(** C4.  In the Unified Record of two non-empty frames, a (month,
    location) key of the AAA frame that the BRAS frame does not have is
    the key of a row, and every row with this key has capacity 100000,
    peak rate 0 and utilization 0; a key of the BRAS frame that the AAA
    frame does not have is the key of a row, and every row with this key
    has user count 0. *)
Theorem C4_outer_join_fills (L : list Bras.Monthly) (R : list Aaa.Monthly) :
  L <> [] -> R <> [] ->
  (forall a,
      In a R ->
      (forall b, In b L ->
         ~ (Bras.Month b = Aaa.Month a /\ Bras.Location b = Aaa.Location a)) ->
      (exists u,
          In u (value (Reconcile.combine_data (DataFrame L) (DataFrame R)))
          /\ Reconcile.Month u = Aaa.Month a
          /\ Reconcile.Location u = Aaa.Location a)
      /\ forall u,
          In u (value (Reconcile.combine_data (DataFrame L) (DataFrame R))) ->
          Reconcile.Month u = Aaa.Month a ->
          Reconcile.Location u = Aaa.Location a ->
          Reconcile.Total_Capacity u = 100000%Q
          /\ Reconcile.MaxSendTrafficRate u = 0%Q
          /\ Reconcile.Utilization_Pct u = 0%Q)
  /\ (forall b,
      In b L ->
      (forall a, In a R ->
         ~ (Bras.Month b = Aaa.Month a /\ Bras.Location b = Aaa.Location a)) ->
      (exists u,
          In u (value (Reconcile.combine_data (DataFrame L) (DataFrame R)))
          /\ Reconcile.Month u = Bras.Month b
          /\ Reconcile.Location u = Bras.Location b)
      /\ forall u,
          In u (value (Reconcile.combine_data (DataFrame L) (DataFrame R))) ->
          Reconcile.Month u = Bras.Month b ->
          Reconcile.Location u = Bras.Location b ->
          Reconcile.AAA_Users u = 0%Q).
Proof.
  intros HL HR. split.
  - intros a Ha Honly. split.
    + exists (Reconcile.fill (Reconcile.right_only a)).
      split; [|split; reflexivity].
      apply In_combine_data; try assumption.
      exists (Reconcile.right_only a). split; [|reflexivity].
      apply In_joined. right; right. exists a.
      split; [assumption|]. split; [|reflexivity].
      intros b Hb Hk. apply (Honly b Hb).
      unfold Reconcile.bras_key, Reconcile.aaa_key in Hk.
      inversion Hk. auto.
    + intros u Hu HM HLoc.
      apply In_combine_data in Hu as [m [Hm ->]]; try assumption.
      apply In_joined in Hm
        as [[b [Hb [_ ->]]]|[[b [a' [Hb [_ [_ ->]]]]]|[a' [_ [_ ->]]]]].
      * exfalso. apply (Honly b Hb). auto.
      * exfalso. apply (Honly b Hb). auto.
      * repeat split; reflexivity.
  - intros b Hb Honly.
    assert (Hnil : Reconcile.matches_of b R = []).
    { destruct (Reconcile.matches_of b R) as [|a ms] eqn:Hms; [reflexivity|].
      exfalso.
      assert (Hin : In a (Reconcile.matches_of b R))
        by (rewrite Hms; now left).
      apply filter_In in Hin as [Ha Hk]. apply join_key_eqb_eq in Hk.
      apply (Honly a Ha).
      unfold Reconcile.bras_key, Reconcile.aaa_key in Hk.
      inversion Hk. auto. }
    split.
    + exists (Reconcile.fill (Reconcile.left_only b)).
      split; [|split; reflexivity].
      apply In_combine_data; try assumption.
      exists (Reconcile.left_only b). split; [|reflexivity].
      apply In_joined. left. eauto.
    + intros u Hu HM HLoc.
      apply In_combine_data in Hu as [m [Hm ->]]; try assumption.
      apply In_joined in Hm
        as [[b' [_ [_ ->]]]|[[b' [a' [_ [Ha' [Hk ->]]]]]|[a' [Ha' [_ ->]]]]].
      * reflexivity.
      * exfalso. apply (Honly a' Ha').
        unfold Reconcile.bras_key, Reconcile.aaa_key in Hk.
        inversion Hk. simpl in HM, HLoc. split; congruence.
      * exfalso. apply (Honly a' Ha'). simpl in HM, HLoc. auto.
Qed.

Lemma C4_witness :
  let a := Aaa.mkMonthly 0 "Jan 1970" "MDY_AAA" (Some 5%Q) in
  let L := [Bras.mkMonthly 0 "MDY_BRAS01" (Some 7000%Q) (Some 100000%Q)
                           (Some 7%Q) "Jan 1970"] in
  let R := [a] in
  exists u,
    In u (value (Reconcile.combine_data (DataFrame L) (DataFrame R)))
    /\ Reconcile.Month u = 0
    /\ Reconcile.Location u = "MDY_AAA"
    /\ Reconcile.Total_Capacity u = 100000%Q
    /\ Reconcile.MaxSendTrafficRate u = 0%Q
    /\ Reconcile.Utilization_Pct u = 0%Q.
Proof.
  intros a L R.
  destruct (C4_outer_join_fills L R) as [Haaa _]; [discriminate ..|].
  destruct (Haaa a) as [[u [Hu [HM HL]]] Hfill].
  - now left.
  - intros b [<-|[]] [_ Hloc]. discriminate.
  - exists u. destruct (Hfill u Hu HM HL) as [H1 [H2 H3]].
    repeat split; assumption.
Defined.

(** ** The BRAS loader *)

Lemma zip_readings_map (q : list Bras.Row) :
  forall rates months,
    Forall2 (fun r x => Bras.parse_rate r = Ok x) q rates ->
    Forall2 (fun r p => Bras.parse_month r = Ok p) q months ->
    Bras.zip_readings q rates months = map Bras.reading_of q.
Proof.
  induction q as [|r q IH]; intros rates months Hr Hm.
  - reflexivity.
  - inversion Hr as [|? x ? rates' Hx Hr']; subst.
    inversion Hm as [|? p ? months' Hp Hm']; subst.
    simpl. rewrite (IH _ _ Hr' Hm'). f_equal.
    unfold Bras.reading_of. now rewrite Hx, Hp.
Qed.

Lemma Forall2_In_left {A B : Type} (P : A -> B -> Prop) (l : list A)
      (l' : list B) :
  Forall2 P l l' -> forall a, In a l -> exists b, P a b.
Proof.
  induction 1 as [|x y l l' Hxy _ IH]; intros a Ha.
  - contradiction.
  - destruct Ha as [<-|Ha]; eauto.
Qed.

(** What a successful load computes: every qualifying row converts, and
    the frame aggregates the converted rows. *)
Lemma load_bras_frame_Ok (rows : list Bras.Row) (df : list Bras.Monthly) :
  Bras.load_bras_frame rows = Ok (DataFrame df) ->
  filter Bras.is_100GE rows <> []
  /\ (forall r, In r (filter Bras.is_100GE rows) ->
        (exists x, Bras.parse_rate r = Ok x)
        /\ (exists p, Bras.parse_month r = Ok p))
  /\ df = Bras.monthly_bras (map Bras.reading_of (filter Bras.is_100GE rows)).
Proof.
  unfold Bras.load_bras_frame.
  destruct (filter Bras.is_100GE rows) as [|r0 q] eqn:Hq; [discriminate|].
  destruct (mapM Bras.parse_rate (r0 :: q)) as [rates|e] eqn:Hrates;
    [|discriminate].
  destruct (mapM Bras.parse_month (r0 :: q)) as [months|e] eqn:Hmonths;
    [|discriminate].
  cbn [bind]. intros H. inversion H as [Hdf]; clear H.
  apply mapM_Ok_Forall2 in Hrates. apply mapM_Ok_Forall2 in Hmonths.
  split; [discriminate|]. split.
  - intros r Hr. split.
    + apply (Forall2_In_left _ _ _ Hrates r Hr).
    + apply (Forall2_In_left _ _ _ Hmonths r Hr).
  - rewrite <- (zip_readings_map _ _ _ Hrates Hmonths). reflexivity.
Qed.

Lemma load_bras_frame_complete (rows : list Bras.Row) :
  filter Bras.is_100GE rows <> [] ->
  (forall r, In r (filter Bras.is_100GE rows) ->
     (exists x, Bras.parse_rate r = Ok x)
     /\ (exists p, Bras.parse_month r = Ok p)) ->
  Bras.load_bras_frame rows
  = Ok (DataFrame
          (Bras.monthly_bras
             (map Bras.reading_of (filter Bras.is_100GE rows)))).
Proof.
  intros Hne Hall. unfold Bras.load_bras_frame.
  destruct (filter Bras.is_100GE rows) as [|r0 q] eqn:Hq; [congruence|].
  destruct (mapM_total Bras.parse_rate (r0 :: q)) as [rates Hrates].
  { intros a Ha. now apply Hall. }
  destruct (mapM_total Bras.parse_month (r0 :: q)) as [months Hmonths].
  { intros a Ha. now apply Hall. }
  rewrite Hrates, Hmonths. cbn [bind].
  apply mapM_Ok_Forall2 in Hrates. apply mapM_Ok_Forall2 in Hmonths.
  now rewrite (zip_readings_map _ _ _ Hrates Hmonths).
Qed.


(** The text of a match of [BRAS\d+]. *)
Lemma take_digits_all (s : string) :
  PyStr.all_digits (PyStr.take_digits s) = true.
Proof.
  induction s as [|a s IH]; simpl; [reflexivity|].
  destruct (PyStr.is_digit a) eqn:Ha; simpl; [|reflexivity].
  now rewrite Ha, IH.
Qed.

Lemma extract_bras_tag (s t : string) :
  PyStr.extract_bras s = Some t ->
  exists ds, t = "BRAS" ++ ds /\ ds <> "" /\ PyStr.all_digits ds = true.
Proof.
  induction s as [|a s IH]; simpl.
  - unfold PyStr.match_bras_here. simpl. discriminate.
  - destruct (PyStr.match_bras_here (String a s)) as [t'|] eqn:Hm.
    + intros H; inversion H; subst t'. clear H.
      unfold PyStr.match_bras_here in Hm.
      destruct (String.prefix "BRAS" (String a s)); [|discriminate].
      destruct (PyStr.take_digits (PyStr.drop 4 (String a s)))
        as [|c ds] eqn:Hds; [discriminate|].
      inversion Hm; subst t. exists (String c ds).
      split; [reflexivity|]. split; [discriminate|].
      rewrite <- Hds. apply take_digits_all.
    + exact IH.
Qed.

Lemma Location_key_tag (r : Bras.Row) (loc : string) :
  Bras.Location_key r = Some loc ->
  exists seg ds,
    loc = seg ++ "_" ++ "BRAS" ++ ds
    /\ ds <> "" /\ PyStr.all_digits ds = true.
Proof.
  unfold Bras.Location_key, Bras.BRAS_Device.
  destruct (Bras.NE_Location r) as [s|]; [|discriminate].
  destruct (PyStr.extract_bras s) as [dev|] eqn:Hdev; [|discriminate].
  intros H; inversion H; subst loc.
  destruct (extract_bras_tag s dev Hdev) as [ds [-> [Hne Hall]]].
  exists (PyStr.split_first "," s), ds. auto.
Qed.

Lemma In_present_keys (df : list Bras.Reading) (k : Bras.Key) :
  In k (Bras.present_keys df) <->
  exists x, In x df /\ Bras.group_key x = Some k.
Proof.
  induction df as [|x df IH]; simpl.
  - split; [contradiction | intros [? [[] _]]].
  - destruct (Bras.group_key x) as [k'|] eqn:Hk; simpl; rewrite IH.
    + split.
      * intros [<-|[y [Hy Hky]]]; eauto.
      * intros [y [[<-|Hy] Hky]];
          [left; congruence | right; eauto].
    + split.
      * intros [y [Hy Hky]]; eauto.
      * intros [y [[<-|Hy] Hky]]; [congruence | eauto].
Qed.

Lemma In_group_keys (df : list Bras.Reading) (k : Bras.Key) :
  In k (Bras.group_keys df) <->
  exists x, In x df /\ Bras.group_key x = Some k.
Proof.
  unfold Bras.group_keys.
  rewrite sort_by_In, nodup_In. apply In_present_keys.
Qed.

Lemma group_keys_NoDup (df : list Bras.Reading) : NoDup (Bras.group_keys df).
Proof.
  unfold Bras.group_keys.
  eapply Permutation_NoDup;
    [apply Permutation_sym, sort_by_perm | apply NoDup_nodup].
Qed.

Lemma In_monthly_bras (df : list Bras.Reading) (m : Bras.Monthly) :
  In m (Bras.monthly_bras df) <->
  exists k, In k (Bras.group_keys df) /\ m = Bras.monthly_row df k.
Proof.
  unfold Bras.monthly_bras. rewrite in_map_iff.
  split; intros [k [H1 H2]]; exists k; auto.
Qed.

(** ** Rows without a device tag *)

Lemma untagged_no_key (r : Bras.Row) :
  Bras.has_tag r = false -> Bras.Location_key r = None.
Proof.
  unfold Bras.has_tag, Bras.Location_key.
  destruct (Bras.BRAS_Device r); [discriminate|].
  intros _. now destruct (Bras.NE_Location r).
Qed.

Lemma untagged_no_group (r : Bras.Row) :
  Bras.has_tag r = false -> Bras.group_key (Bras.reading_of r) = None.
Proof.
  intros H. unfold Bras.group_key. simpl.
  rewrite (untagged_no_key r H).
  now destruct (match Bras.parse_month r with Ok p => p | Raise _ => None end).
Qed.

Lemma present_keys_tagged (q : list Bras.Row) :
  Bras.present_keys (map Bras.reading_of (filter Bras.has_tag q))
  = Bras.present_keys (map Bras.reading_of q).
Proof.
  induction q as [|r q IH]; [reflexivity|].
  simpl. destruct (Bras.has_tag r) eqn:Ht.
  - simpl. now rewrite IH.
  - now rewrite (untagged_no_group r Ht).
Qed.

Lemma group_tagged (k : Bras.Key) (q : list Bras.Row) :
  filter (Bras.in_group k) (map Bras.reading_of (filter Bras.has_tag q))
  = filter (Bras.in_group k) (map Bras.reading_of q).
Proof.
  induction q as [|r q IH]; [reflexivity|].
  simpl. destruct (Bras.has_tag r) eqn:Ht.
  - simpl. now rewrite IH.
  - unfold Bras.in_group at 2. now rewrite (untagged_no_group r Ht).
Qed.

Lemma monthly_bras_tagged (q : list Bras.Row) :
  Bras.monthly_bras (map Bras.reading_of (filter Bras.has_tag q))
  = Bras.monthly_bras (map Bras.reading_of q).
Proof.
  unfold Bras.monthly_bras, Bras.group_keys.
  rewrite present_keys_tagged.
  apply map_ext. intros k. unfold Bras.monthly_row.
  now rewrite group_tagged.
Qed.

Lemma filter_filter_comm {A : Type} (p q : A -> bool) (l : list A) :
  filter p (filter q l) = filter q (filter p l).
Proof.
  induction l as [|a l IH]; [reflexivity|].
  simpl. destruct (q a) eqn:Hq, (p a) eqn:Hp; simpl;
    rewrite ?Hq, ?Hp, IH; reflexivity.
Qed.

(** C10.  When the BRAS loader returns a frame, every location key of the
    frame is a text followed by [_] and a device tag, [BRAS] and at least
    one digit.  A source row without such a tag has a null device tag and a
    null location key; it is left out by the group-by: the frame is the one
    computed from the tagged rows alone (and it is empty when no tagged row
    qualifies), and the loader shows no message. *)
Theorem C10_location_keys_have_device_tag
        (rows : list Bras.Row) (df : list Bras.Monthly) :
  Bras.load_bras_frame rows = Ok (DataFrame df) ->
  (forall m, In m df ->
     exists seg ds,
       Bras.Location m = seg ++ "_" ++ "BRAS" ++ ds
       /\ ds <> "" /\ PyStr.all_digits ds = true)
  /\ (forall r, In r rows ->
        (forall s, Bras.NE_Location r = Some s ->
                   PyStr.extract_bras s = None) ->
        Bras.BRAS_Device r = None /\ Bras.Location_key r = None)
  /\ (filter Bras.is_100GE (filter Bras.has_tag rows) <> [] ->
      Bras.load_bras_frame (filter Bras.has_tag rows) = Ok (DataFrame df))
  /\ (filter Bras.is_100GE (filter Bras.has_tag rows) = [] -> df = [])
  /\ Bras.load_bras_data (File rows) = mkOutcome (DataFrame df) [].
Proof.
  intros Hload.
  destruct (load_bras_frame_Ok rows df Hload) as [Hne [Hconv Hdf]].
  split; [|split; [|split; [|split]]].
  - intros m Hm. rewrite Hdf in Hm.
    apply In_monthly_bras in Hm as [k [Hk ->]].
    apply In_group_keys in Hk as [x [Hx Hkey]].
    apply in_map_iff in Hx as [r [<- Hr]].
    unfold Bras.group_key in Hkey. simpl in Hkey.
    destruct (match Bras.parse_month r with Ok p => p | Raise _ => None end)
      as [p|]; [|discriminate].
    destruct (Bras.Location_key r) as [loc|] eqn:Hloc; [|discriminate].
    inversion Hkey; subst k. simpl.
    now apply (Location_key_tag r).
  - intros r _ Hno.
    assert (Hdev : Bras.BRAS_Device r = None).
    { unfold Bras.BRAS_Device.
      destruct (Bras.NE_Location r) as [s|]; [now apply Hno | reflexivity]. }
    split; [exact Hdev|].
    apply untagged_no_key. unfold Bras.has_tag. now rewrite Hdev.
  - intros Hne'.
    rewrite load_bras_frame_complete.
    + rewrite filter_filter_comm, monthly_bras_tagged. now rewrite Hdf.
    + exact Hne'.
    + intros r Hr. apply Hconv.
      rewrite filter_filter_comm in Hr. now apply filter_In in Hr as [Hr _].
  - intros Hnil.
    rewrite Hdf, <- monthly_bras_tagged, <- filter_filter_comm, Hnil.
    reflexivity.
  - unfold Bras.load_bras_data. now rewrite Hload.
Qed.

Lemma C10_witness :
  let tagged := Scenario.bras_row in
  let untagged := Bras.mkRow (Some "Mandalay, core router")
                             (Some "100GE1/0/2") "99,000" (Some "2025-04-16") in
  let m := Bras.mkMonthly 1743465600000000000 "Mandalay_BRAS01"
                          (Some 45000%Q) (Some 100000%Q)
                          (Some (45000 / 100000 * 100)%Q) "Apr 2025" in
  Bras.load_bras_frame [tagged; untagged] = Ok (DataFrame [m])
  /\ exists seg ds,
       Bras.Location m = seg ++ "_" ++ "BRAS" ++ ds
       /\ ds <> "" /\ PyStr.all_digits ds = true.
Proof.
  intros tagged untagged m.
  assert (Hload : Bras.load_bras_frame [tagged; untagged]
                  = Ok (DataFrame [m])) by (vm_compute; reflexivity).
  split; [exact Hload|].
  apply (proj1 (C10_location_keys_have_device_tag
                  [tagged; untagged] [m] Hload) m).
  now left.
Defined.

(** ** Parse failures *)




(** ** Months of timestamps *)

(** Linear arithmetic with divisions by constants. *)
Ltac div_lia := Z.div_mod_to_equations; lia.

Lemma is_leap_spec (y : Z) :
  Calendar.is_leap y = true <->
  (y mod 4 = 0 /\ y mod 100 <> 0) \/ y mod 400 = 0.
Proof.
  unfold Calendar.is_leap.
  rewrite orb_true_iff, andb_true_iff, negb_true_iff, !Z.eqb_eq, Z.eqb_neq.
  tauto.
Qed.

Lemma valid_date_spec (y m d : Z) :
  Calendar.valid_date y m d = true ->
  1 <= m <= 12 /\ 1 <= d <= 31
  /\ (m = 2 -> d <= 29)
  /\ (m = 2 -> d = 29 -> (y mod 4 = 0 /\ y mod 100 <> 0) \/ y mod 400 = 0)
  /\ (m = 4 \/ m = 6 \/ m = 9 \/ m = 11 -> d <= 30).
Proof.
  unfold Calendar.valid_date, Calendar.days_in_month.
  rewrite !andb_true_iff, !Z.leb_le.
  intros [[[Hm1 Hm12] Hd1] Hd].
  destruct (Z.eqb_spec m 2) as [->|Hm2].
  - destruct (Calendar.is_leap y) eqn:Hleap.
    + apply is_leap_spec in Hleap. repeat split; intros; div_lia.
    + repeat split; intros; div_lia.
  - destruct ((m =? 4) || (m =? 6) || (m =? 9) || (m =? 11)) eqn:H30.
    + repeat split; intros; div_lia.
    + rewrite !orb_false_iff, !Z.eqb_neq in H30.
      repeat split; intros; div_lia.
Qed.

(** The year of the era of a day of the era. *)
Lemma yoe_of_doe (yoe doy : Z) :
  0 <= yoe <= 399 -> 0 <= doy <= 365 ->
  (doy = 365 ->
   (yoe + 1) mod 4 = 0 /\ ((yoe + 1) mod 100 <> 0 \/ yoe = 399)) ->
  (yoe * 365 + yoe / 4 - yoe / 100 + doy
   - (yoe * 365 + yoe / 4 - yoe / 100 + doy) / 1460
   + (yoe * 365 + yoe / 4 - yoe / 100 + doy) / 36524
   - (yoe * 365 + yoe / 4 - yoe / 100 + doy) / 146096) / 365 = yoe.
Proof. intros Hy Hd Hleap. div_lia. Qed.

(** The civil date of the day count of a valid date is that date. *)
Lemma civil_from_days_from_civil (y m d : Z) :
  Calendar.valid_date y m d = true ->
  Calendar.civil_from_days (Calendar.days_from_civil y m d) = (y, m, d).
Proof.
  intros Hvalid.
  destruct (valid_date_spec y m d Hvalid) as [Hm [Hd [Hfeb [Hleap H30]]]].
  unfold Calendar.days_from_civil. cbv zeta.
  set (y' := if m <=? 2 then y - 1 else y).
  set (era := y' / 400).
  set (yoe := y' - era * 400).
  set (mp := (m + 9) mod 12).
  set (doy := (153 * mp + 2) / 5 + d - 1).
  set (doe := yoe * 365 + yoe / 4 - yoe / 100 + doy).
  assert (Hy' : y' = y - 1 /\ m <= 2 \/ y' = y /\ 2 < m).
  { unfold y'. destruct (Z.leb_spec m 2); div_lia. }
  assert (Hyoe : 0 <= yoe <= 399) by (unfold yoe, era; div_lia).
  assert (Hmp : mp = m - 3 /\ 3 <= m \/ mp = m + 9 /\ m <= 2)
    by (unfold mp; div_lia).
  assert (Hdoy : 0 <= doy <= 365
                 /\ (doy = 365 -> m = 2 /\ d = 29)
                 /\ (5 * doy + 2) / 153 = mp
                 /\ doy - (153 * mp + 2) / 5 + 1 = d).
  { unfold doy.
    assert (Hcases : m = 1 \/ m = 2 \/ m = 3 \/ m = 4 \/ m = 5 \/ m = 6
                     \/ m = 7 \/ m = 8 \/ m = 9 \/ m = 10 \/ m = 11
                     \/ m = 12) by div_lia.
    destruct Hcases
      as [E|[E|[E|[E|[E|[E|[E|[E|[E|[E|[E|E]]]]]]]]]]];
      assert (Hmpv : mp = (m + 9) mod 12) by reflexivity;
      rewrite E in Hmpv; cbn in Hmpv; rewrite Hmpv; div_lia. }
  destruct Hdoy as [Hdoy [Hdoy365 [Hmp' Hd']]].
  assert (Hleap' : doy = 365 ->
            (yoe + 1) mod 4 = 0 /\ ((yoe + 1) mod 100 <> 0 \/ yoe = 399)).
  { intros E. destruct (Hdoy365 E) as [Em Ed].
    specialize (Hleap Em Ed). unfold yoe, era. div_lia. }
  assert (Hdoe : 0 <= doe <= 146096) by (unfold doe; div_lia).
  unfold Calendar.civil_from_days. cbv zeta.
  replace (era * 146097 + doe - 719468 + 719468) with (era * 146097 + doe)
    by div_lia.
  replace ((era * 146097 + doe) / 146097) with era by div_lia.
  replace (era * 146097 + doe - era * 146097) with doe by div_lia.
  replace ((doe - doe / 1460 + doe / 36524 - doe / 146096) / 365) with yoe
    by (symmetry; apply (yoe_of_doe yoe doy Hyoe Hdoy Hleap')).
  replace (doe - (365 * yoe + yoe / 4 - yoe / 100)) with doy
    by (unfold doe; div_lia).
  rewrite Hmp', Hd'.
  replace (if mp <? 10 then mp + 3 else mp - 9) with m
    by (destruct (Z.ltb_spec mp 10); div_lia).
  replace (if m <=? 2 then yoe + era * 400 + 1 else yoe + era * 400) with y
    by (destruct (Z.leb_spec m 2); unfold yoe; div_lia).
  reflexivity.
Qed.

(** The month of a day count is a month of the calendar. *)
Lemma civil_from_days_month (z : Z) :
  1 <= snd (fst (Calendar.civil_from_days z)) <= 12.
Proof.
  unfold Calendar.civil_from_days. cbv zeta. cbn [fst snd].
  set (z' := z + 719468).
  set (era := z' / 146097).
  set (doe := z' - era * 146097).
  assert (Hdoe : 0 <= doe <= 146096) by (unfold doe, era; div_lia).
  set (yoe := (doe - doe / 1460 + doe / 36524 - doe / 146096) / 365).
  set (doy := doe - (365 * yoe + yoe / 4 - yoe / 100)).
  assert (Hdoy : 0 <= doy <= 365) by (unfold doy, yoe; div_lia).
  set (mp := (5 * doy + 2) / 153).
  assert (Hmp : 0 <= mp <= 11) by (unfold mp; div_lia).
  destruct (Z.ltb_spec mp 10); div_lia.
Qed.

Lemma valid_first_day (y m : Z) :
  1 <= m <= 12 -> Calendar.valid_date y m 1 = true.
Proof.
  intros Hm. unfold Calendar.valid_date, Calendar.days_in_month.
  rewrite !andb_true_iff, !Z.leb_le.
  repeat split; try lia.
  destruct (m =? 2); [destruct (Calendar.is_leap y); lia|].
  destruct (_ || _); lia.
Qed.

Lemma month_start_ok_any (z : Z) : Calendar.month_start_ok z = true.
Proof.
  unfold Calendar.month_start_ok.
  pose proof (civil_from_days_month z) as Hm.
  destruct (Calendar.civil_from_days z) as [[y m] d].
  cbn [fst snd] in Hm.
  rewrite (civil_from_days_from_civil y m 1 (valid_first_day y m Hm)).
  now rewrite !Z.eqb_refl.
Qed.

Lemma month_start_roundtrip (z y m d : Z) :
  Calendar.month_start_ok z = true ->
  Calendar.civil_from_days z = (y, m, d) ->
  exists d', Calendar.civil_from_days (Calendar.days_from_civil y m 1)
             = (y, m, d').
Proof.
  unfold Calendar.month_start_ok. intros H Hc. rewrite Hc in H.
  destruct (Calendar.civil_from_days (Calendar.days_from_civil y m 1))
    as [[y' m'] d'].
  apply andb_true_iff in H as [Hy Hm].
  apply Z.eqb_eq in Hy, Hm. subst. now exists d'.
Qed.

Lemma to_timestamp_day (p : Calendar.Period) :
  Calendar.to_timestamp p / Calendar.ns_per_day
  = Calendar.days_from_civil (fst p) (snd p) 1.
Proof.
  unfold Calendar.to_timestamp, Calendar.of_civil.
  change (((0 * 60 + 0) * 60 + 0) * Calendar.ns_per_second) with 0.
  rewrite Z.add_0_r. apply Z.div_mul. discriminate.
Qed.

(** The month of a timestamp is found again from the first instant of that
    month. *)
Lemma to_period_M_to_timestamp (t : Calendar.Timestamp) :
  Calendar.to_period_M (Calendar.to_timestamp (Calendar.to_period_M t))
  = Calendar.to_period_M t.
Proof.
  pose proof (month_start_ok_any (t / Calendar.ns_per_day)) as Hok.
  unfold Calendar.to_period_M at 1 3.
  unfold Calendar.year_of, Calendar.month_of, Calendar.date_of.
  rewrite to_timestamp_day.
  unfold Calendar.to_period_M, Calendar.year_of, Calendar.month_of,
    Calendar.date_of.
  destruct (Calendar.civil_from_days (t / Calendar.ns_per_day))
    as [[y m] d] eqn:Hc.
  destruct (month_start_roundtrip _ y m d Hok Hc) as [d' Hd'].
  cbn [fst snd]. rewrite Hd'. reflexivity.
Qed.

Lemma checked_in_bounds (z : Z) (t : Calendar.Timestamp) :
  Calendar.checked z = Ok t -> Calendar.in_bounds t = true.
Proof.
  unfold Calendar.checked.
  destruct (Calendar.in_bounds z) eqn:Hb; [|discriminate].
  intros H; inversion H; now subst.
Qed.

Lemma to_datetime_in_bounds (s : string) (t : Calendar.Timestamp) :
  Calendar.to_datetime s = Ok t -> Calendar.in_bounds t = true.
Proof.
  unfold Calendar.to_datetime.
  destruct (Calendar.field 0 4 s) as [y|]; [|discriminate].
  destruct (Calendar.field 5 2 s) as [m|]; [|discriminate].
  destruct (Calendar.field 8 2 s) as [d|]; [|discriminate].
  destruct (_ && _ && Calendar.valid_date y m d); [|discriminate].
  destruct (String.length s =? 10)%nat; [apply checked_in_bounds|].
  destruct (_ && _ && _ && _); [|discriminate].
  destruct (Calendar.field 11 2 s) as [hh|]; [|discriminate].
  destruct (Calendar.field 14 2 s) as [mm|]; [|discriminate].
  destruct (Calendar.field 17 2 s) as [ss|]; [|discriminate].
  destruct (_ && _ && _); [|discriminate].
  apply checked_in_bounds.
Qed.

(** The month of a qualifying row is the month of a timestamp. *)
Lemma parse_month_period (r : Bras.Row) (p : Calendar.Period) :
  Bras.parse_month r = Ok (Some p) ->
  Calendar.to_period_M (Calendar.to_timestamp p) = p.
Proof.
  unfold Bras.parse_month.
  destruct (Bras.End_Time r) as [s|]; [|discriminate].
  destruct (Calendar.to_datetime s) as [t|e] eqn:Ht; [|discriminate].
  cbn [bind]. intros H. inversion H; subst p.
  apply to_period_M_to_timestamp.
Qed.

(** ** One row per month and location *)

Lemma NoDup_map_inj_on {A B : Type} (f : A -> B) (l : list A) :
  NoDup l ->
  (forall x y, In x l -> In y l -> f x = f y -> x = y) ->
  NoDup (map f l).
Proof.
  induction 1 as [|a l Hnotin Hnd IH]; intros Hinj; simpl; constructor.
  - intros Hin. apply in_map_iff in Hin as [x [Hfx Hx]].
    assert (x = a) by (apply Hinj; simpl; auto).
    now subst.
  - apply IH. intros x y Hx Hy. apply Hinj; simpl; auto.
Qed.

(** Distinct keys stay distinct in a selection of the rows. *)
Lemma NoDup_map_filter {K R : Type} (key : R -> K) (keep : R -> bool)
      (rows : list R) :
  NoDup (map key rows) -> NoDup (map key (filter keep rows)).
Proof.
  induction rows as [|a l IH]; simpl; intros Hnd; [constructor|].
  inversion Hnd as [|? ? Hnotin Hnd']; subst.
  destruct (keep a); simpl; [|now apply IH].
  constructor; [|now apply IH].
  intros Hin. apply Hnotin.
  apply in_map_iff in Hin as [x [Hfx Hx]].
  apply filter_In in Hx as [Hx _].
  apply in_map_iff. eauto.
Qed.

Lemma NoDup_append {A : Type} (xs ys : list A) :
  NoDup xs -> NoDup ys -> (forall a, In a xs -> ~ In a ys) ->
  NoDup (xs ++ ys).
Proof.
  induction 1 as [|a l Hnotin Hnd IH]; intros Hnd' Hdisj; simpl.
  - exact Hnd'.
  - constructor.
    + intros Hin. apply in_app_or in Hin as [Hin|Hin]; [contradiction|].
      apply (Hdisj a); simpl; auto.
    + apply IH; [assumption|]. intros x Hx. apply Hdisj. simpl; auto.
Qed.

(** The keys of the groups are the keys of qualifying rows, and their
    months are months of timestamps. *)
Lemma group_key_reading (r : Bras.Row) (k : Bras.Key) :
  (exists x, Bras.parse_rate r = Ok x) ->
  (exists p, Bras.parse_month r = Ok p) ->
  Bras.group_key (Bras.reading_of r) = Some k ->
  Bras.parse_month r = Ok (Some (fst k))
  /\ Bras.Location_key r = Some (snd k).
Proof.
  intros _ [p Hp]. unfold Bras.group_key. simpl. rewrite Hp.
  destruct p as [p|]; [|discriminate].
  destruct (Bras.Location_key r) as [loc|]; [|discriminate].
  intros H; inversion H; subst k. auto.
Qed.

Section Loaded.
Variable rows : list Bras.Row.
Variable df : list Bras.Monthly.
Hypothesis Hload : Bras.load_bras_frame rows = Ok (DataFrame df).

Let q := filter Bras.is_100GE rows.
Let readings := map Bras.reading_of q.

Lemma loaded_frame : df = Bras.monthly_bras readings.
Proof. now destruct (load_bras_frame_Ok rows df Hload) as [_ [_ ->]]. Qed.

Lemma loaded_key (k : Bras.Key) :
  In k (Bras.group_keys readings) ->
  exists r, In r rows /\ Bras.is_100GE r = true
            /\ Bras.parse_month r = Ok (Some (fst k))
            /\ Bras.Location_key r = Some (snd k).
Proof.
  intros Hk. apply In_group_keys in Hk as [x [Hx Hkey]].
  apply in_map_iff in Hx as [r [<- Hr]].
  destruct (load_bras_frame_Ok rows df Hload) as [_ [Hconv _]].
  destruct (Hconv r Hr) as [Hrate Hmonth].
  destruct (group_key_reading r k Hrate Hmonth Hkey) as [Hm Hl].
  apply filter_In in Hr as [Hr Hge]. eauto.
Qed.

Lemma loaded_key_month (k : Bras.Key) :
  In k (Bras.group_keys readings) ->
  Calendar.to_period_M (Calendar.to_timestamp (fst k)) = fst k.
Proof.
  intros Hk. destruct (loaded_key k Hk) as [r [_ [_ [Hm _]]]].
  now apply (parse_month_period r).
Qed.

(** Two groups with the same month start and location are one group. *)
Lemma loaded_key_inj (k k' : Bras.Key) :
  In k (Bras.group_keys readings) ->
  In k' (Bras.group_keys readings) ->
  Calendar.to_timestamp (fst k) = Calendar.to_timestamp (fst k') ->
  snd k = snd k' ->
  k = k'.
Proof.
  intros Hk Hk' Ht Hl.
  pose proof (loaded_key_month k Hk) as Hp.
  pose proof (loaded_key_month k' Hk') as Hp'.
  destruct k as [p l], k' as [p' l']. simpl in *. subst l'. f_equal.
  rewrite <- Hp, <- Hp'. now rewrite Ht.
Qed.

Lemma loaded_row (b : Bras.Monthly) :
  In b df <->
  exists k, In k (Bras.group_keys readings)
            /\ b = Bras.monthly_row readings k.
Proof. rewrite loaded_frame. apply In_monthly_bras. Qed.

Lemma bras_month_loc_NoDup :
  NoDup (map Reconcile.bras_month_loc df).
Proof.
  rewrite loaded_frame. unfold Bras.monthly_bras. rewrite map_map.
  apply NoDup_map_inj_on; [apply group_keys_NoDup|].
  intros k k' Hk Hk' Heq.
  unfold Reconcile.bras_month_loc, Bras.monthly_row in Heq. simpl in Heq.
  inversion Heq. now apply loaded_key_inj.
Qed.

Lemma loaded_Month_Name (b : Bras.Monthly) :
  In b df -> Bras.Month_Name b = Calendar.strftime_b_Y (Bras.Month b).
Proof. intros Hb. apply loaded_row in Hb as [k [_ ->]]. reflexivity. Qed.
End Loaded.

Lemma In_keep_rows (rows : list Aaa.Row) (m : Aaa.Monthly) :
  In m (Aaa.keep_rows rows) <->
  exists r, In r rows /\ Aaa.monthly_row r = Some m.
Proof.
  induction rows as [|r rows IH]; simpl.
  - split; [contradiction | intros [? [[] _]]].
  - destruct (Aaa.monthly_row r) as [y|] eqn:Hy; simpl; rewrite IH.
    + split.
      * intros [<-|[r' [Hr' Hx]]]; eauto.
      * intros [r' [[<-|Hr'] Hx]]; [left; congruence | right; eauto].
    + split.
      * intros [r' [Hr' Hx]]; eauto.
      * intros [r' [[<-|Hr'] Hx]]; [congruence | eauto].
Qed.

Lemma aaa_Month_Name (src : source Aaa.Row) (A : list Aaa.Monthly)
      (a : Aaa.Monthly) :
  Aaa.load_aaa_data src = DataFrame A -> In a A ->
  Aaa.Month_Name a = Calendar.strftime_b_Y (Aaa.Month a).
Proof.
  destruct src as [|rows]; simpl; intros H; inversion H; subst A.
  - contradiction.
  - intros Ha. apply sort_by_In, In_keep_rows in Ha as [r [_ Hr]].
    unfold Aaa.monthly_row in Hr.
    destruct (Aaa.parse_date _); [|discriminate].
    inversion Hr. reflexivity.
Qed.

Lemma NoDup_map_In_inj {A B : Type} (f : A -> B) (l : list A) (x y : A) :
  NoDup (map f l) -> In x l -> In y l -> f x = f y -> x = y.
Proof.
  induction l as [|a l IH]; simpl; intros Hnd Hx Hy Heq; [contradiction|].
  inversion Hnd as [|? ? Hnotin Hnd']; subst.
  destruct Hx as [->|Hx], Hy as [->|Hy]; auto.
  - exfalso. apply Hnotin. rewrite Heq. now apply in_map.
  - exfalso. apply Hnotin. rewrite <- Heq. now apply in_map.
Qed.

Lemma filter_at_most_one {A B : Type} (f : A -> B) (p : A -> bool)
      (l : list A) :
  NoDup (map f l) ->
  (forall x y, In x l -> In y l -> p x = true -> p y = true -> f x = f y) ->
  filter p l = [] \/ exists a, filter p l = [a].
Proof.
  induction l as [|a l IH]; simpl; intros Hnd Hsame; [now left|].
  inversion Hnd as [|? ? Hnotin Hnd']; subst.
  destruct IH as [Hnil|[a' Hone]]; [assumption | intros; apply Hsame; auto | |].
  - destruct (p a); [right; exists a; now rewrite Hnil | now left].
  - destruct (p a) eqn:Hpa; [|right; eauto].
    exfalso. apply Hnotin.
    assert (Hin : In a' (filter p l)) by (rewrite Hone; now left).
    apply filter_In in Hin as [Hin Hpa'].
    rewrite (Hsame a a'); auto. now apply in_map.
Qed.

(** With at most one AAA row per key, a BRAS row gives one joined row. *)
Lemma left_rows_single (R : list Aaa.Monthly) (b : Bras.Monthly) :
  NoDup (map Reconcile.aaa_month_loc R) ->
  exists m, Reconcile.left_rows R b = [m]
            /\ (Reconcile.m_Month m, Reconcile.m_Location m)
               = Reconcile.bras_month_loc b.
Proof.
  intros Hnd. unfold Reconcile.left_rows, Reconcile.matches_of.
  destruct (filter_at_most_one
              Reconcile.aaa_month_loc
              (fun a => Reconcile.join_key_eqb (Reconcile.bras_key b)
                                               (Reconcile.aaa_key a))
              R Hnd) as [Hnil|[a Hone]].
  - intros x y _ _ Hx Hy.
    apply join_key_eqb_eq in Hx, Hy.
    unfold Reconcile.aaa_month_loc, Reconcile.aaa_key, Reconcile.bras_key in *.
    inversion Hx. inversion Hy. congruence.
  - rewrite Hnil. eexists. split; reflexivity.
  - rewrite Hone. eexists. split; reflexivity.
Qed.

Lemma left_part_keys (R : list Aaa.Monthly) (L : list Bras.Monthly) :
  NoDup (map Reconcile.aaa_month_loc R) ->
  map (fun m => (Reconcile.m_Month m, Reconcile.m_Location m))
      (flat_map (Reconcile.left_rows R) L)
  = map Reconcile.bras_month_loc L.
Proof.
  intros Hnd. induction L as [|b L IH]; [reflexivity|].
  simpl. rewrite map_app, IH.
  destruct (left_rows_single R b Hnd) as [m [-> Hm]].
  simpl. now rewrite Hm.
Qed.

Section Combined.
Variable L : list Bras.Monthly.
Variable R : list Aaa.Monthly.
Hypothesis L_names :
  forall b, In b L -> Bras.Month_Name b = Calendar.strftime_b_Y (Bras.Month b).
Hypothesis R_names :
  forall a, In a R -> Aaa.Month_Name a = Calendar.strftime_b_Y (Aaa.Month a).

(** Rows with the same month and location have the same join key. *)
Lemma same_month_loc_same_key (b : Bras.Monthly) (a : Aaa.Monthly) :
  In b L -> In a R ->
  Reconcile.bras_month_loc b = Reconcile.aaa_month_loc a ->
  Reconcile.bras_key b = Reconcile.aaa_key a.
Proof.
  intros Hb Ha Heq.
  unfold Reconcile.bras_month_loc, Reconcile.aaa_month_loc in Heq.
  inversion Heq as [[HM HLoc]].
  unfold Reconcile.bras_key, Reconcile.aaa_key.
  rewrite (L_names b Hb), (R_names a Ha), HM, HLoc. reflexivity.
Qed.

Lemma joined_month_loc_NoDup :
  NoDup (map Reconcile.bras_month_loc L) ->
  NoDup (map Reconcile.aaa_month_loc R) ->
  NoDup (map (fun m => (Reconcile.m_Month m, Reconcile.m_Location m))
             (Reconcile.joined L R)).
Proof.
  intros HL HR. unfold Reconcile.joined.
  rewrite map_app, (left_part_keys R L HR), map_map.
  apply NoDup_append.
  - exact HL.
  - apply (NoDup_map_filter Reconcile.aaa_month_loc). exact HR.
  - intros k Hk Hk'.
    apply in_map_iff in Hk as [b [<- Hb]].
    apply in_map_iff in Hk' as [a [Hka Ha]].
    apply filter_In in Ha as [Ha Hun].
    apply (proj1 (unmatched_spec L a) Hun b Hb).
    apply same_month_loc_same_key; auto.
Qed.

(** The peak rate of the row of a BRAS key. *)
Lemma combine_peak (u : Reconcile.Unified) (b0 : Bras.Monthly) :
  NoDup (map Reconcile.bras_month_loc L) ->
  In u (value (Reconcile.combine_data (DataFrame L) (DataFrame R))) ->
  In b0 L ->
  Reconcile.bras_month_loc b0 = Reconcile.month_loc u ->
  Reconcile.MaxSendTrafficRate u
  = PyNum.fillna 0 (Bras.MaxSendTrafficRate b0).
Proof.
  intros HL Hu Hb0 Hkey.
  assert (HLne : L <> []) by (intros E; rewrite E in Hb0; contradiction).
  assert (HRne : R <> []).
  { intros E. rewrite E in Hu. destruct L; contradiction. }
  apply In_combine_data in Hu as [m [Hm ->]]; try assumption.
  apply In_joined in Hm
    as [[b [Hb [_ ->]]]|[[b [a [Hb [_ [_ ->]]]]]|[a [Ha [Hun ->]]]]].
  - assert (b0 = b)
      by (apply (NoDup_map_In_inj Reconcile.bras_month_loc L); auto).
    now subst.
  - assert (b0 = b)
      by (apply (NoDup_map_In_inj Reconcile.bras_month_loc L); auto).
    now subst.
  - exfalso. apply (Hun b0 Hb0).
    now apply same_month_loc_same_key.
Qed.
End Combined.

Lemma combine_data_perm (L : list Bras.Monthly) (R : list Aaa.Monthly) :
  L <> [] -> R <> [] ->
  Permutation (value (Reconcile.combine_data (DataFrame L) (DataFrame R)))
              (map Reconcile.fill (Reconcile.joined L R)).
Proof.
  intros HL HR.
  destruct L as [|b L]; [congruence|]. destruct R as [|a R]; [congruence|].
  unfold Reconcile.combine_data, Reconcile.combine_frame. simpl value.
  eapply perm_trans; [apply sort_by_perm|].
  apply Permutation_map, sort_by_perm.
Qed.

Lemma combine_month_loc_NoDup (L : list Bras.Monthly) (R : list Aaa.Monthly) :
  (forall b, In b L ->
     Bras.Month_Name b = Calendar.strftime_b_Y (Bras.Month b)) ->
  (forall a, In a R ->
     Aaa.Month_Name a = Calendar.strftime_b_Y (Aaa.Month a)) ->
  NoDup (map Reconcile.bras_month_loc L) ->
  NoDup (map Reconcile.aaa_month_loc R) ->
  NoDup (map Reconcile.month_loc
             (value (Reconcile.combine_data (DataFrame L) (DataFrame R)))).
Proof.
  intros HLn HRn HL HR.
  destruct L as [|b L'] eqn:EL.
  { rewrite combine_data_empty_side; [constructor | now left]. }
  destruct R as [|a R'] eqn:ER.
  { rewrite combine_data_empty_side; [constructor | now right]. }
  rewrite <- EL, <- ER in *.
  assert (HLne : L <> []) by (rewrite EL; discriminate).
  assert (HRne : R <> []) by (rewrite ER; discriminate).
  eapply Permutation_NoDup;
    [apply Permutation_sym, Permutation_map, combine_data_perm; assumption|].
  rewrite map_map.
  change (fun x => Reconcile.month_loc (Reconcile.fill x))
    with (fun m => (Reconcile.m_Month m, Reconcile.m_Location m)).
  now apply joined_month_loc_NoDup.
Qed.

(** The maximum of a group, NaN apart. *)
Lemma nanmax_In (l : list float64) (mx : Q) :
  PyNum.nanmax l = Some mx -> In (Some mx) l.
Proof.
  induction l as [|a l IH]; simpl; [discriminate|].
  unfold PyNum.nanmax2.
  destruct a as [x|]; [|intros H; right; now apply IH].
  destruct (PyNum.nanmax l) as [y|] eqn:Hy.
  - destruct (Qle_bool x y); intros H; inversion H; subst.
    + right. now apply IH.
    + now left.
  - intros H; inversion H. now left.
Qed.

Lemma nanmax_ge (l : list float64) (x : Q) :
  In (Some x) l -> exists mx, PyNum.nanmax l = Some mx /\ (x <= mx)%Q.
Proof.
  induction l as [|a l IH]; simpl; [contradiction|].
  intros [->|Hin].
  - unfold PyNum.nanmax2.
    destruct (PyNum.nanmax l) as [y|].
    + destruct (Qle_bool x y) eqn:Hxy.
      * exists y. split; [reflexivity|]. now apply Qle_bool_iff.
      * exists x. split; [reflexivity | apply Qle_refl].
    + exists x. split; [reflexivity | apply Qle_refl].
  - destruct (IH Hin) as [mx [Hmx Hle]]. rewrite Hmx.
    unfold PyNum.nanmax2. destruct a as [y|]; [|eauto].
    destruct (Qle_bool y mx) eqn:Hy.
    + eauto.
    + exists y. split; [reflexivity|].
      apply Qle_trans with mx; [assumption|].
      apply Qlt_le_weak, Qnot_le_lt. intros Hle'.
      apply Qle_bool_iff in Hle'. congruence.
Qed.

Lemma load_bras_data_frame (src : source Bras.Row) (B : list Bras.Monthly) :
  value (Bras.load_bras_data src) = DataFrame B ->
  B = [] \/ exists rows, src = File rows
                         /\ Bras.load_bras_frame rows = Ok (DataFrame B).
Proof.
  destruct src as [|rows]; simpl.
  - intros H; inversion H. now left.
  - destruct (Bras.load_bras_frame rows) as [v|e] eqn:Hv; simpl.
    + intros ->. right. eauto.
    + intros H; inversion H. now left.
Qed.

(** C5, as the code has it.  The frame of the BRAS loader has one row per
    (month, location).  The Unified Record has one row per (month,
    location) when the frame of the AAA loader has, which the AAA loader does
    not ensure: it keeps every row of its source.  The peak rate of the row
    of a BRAS key is the maximum of the readings of the qualifying rows of
    that month and location: no reading is larger, and it is one of
    them. *)
Theorem C5_one_row_per_key_and_max
        (bras_src : source Bras.Row) (aaa_src : source Aaa.Row) :
  (forall B,
      value (Bras.load_bras_data bras_src) = DataFrame B ->
      NoDup (map Reconcile.bras_month_loc B))
  /\ (forall A,
        Aaa.load_aaa_data aaa_src = DataFrame A ->
        NoDup (map Reconcile.aaa_month_loc A) ->
        NoDup (map Reconcile.month_loc
                   (value (Reconcile.pipeline bras_src aaa_src))))
  /\ (forall bras_rows u r p x,
        bras_src = File bras_rows ->
        In u (value (Reconcile.pipeline bras_src aaa_src)) ->
        In r bras_rows ->
        Bras.is_100GE r = true ->
        Bras.Location_key r = Some (Reconcile.Location u) ->
        Bras.parse_month r = Ok (Some p) ->
        Calendar.to_timestamp p = Reconcile.Month u ->
        Bras.parse_rate r = Ok (Some x) ->
        (x <= Reconcile.MaxSendTrafficRate u)%Q
        /\ exists r' x',
            In r' bras_rows
            /\ Bras.is_100GE r' = true
            /\ Bras.Location_key r' = Some (Reconcile.Location u)
            /\ Bras.parse_month r' = Ok (Some p)
            /\ Bras.parse_rate r' = Ok (Some x')
            /\ Reconcile.MaxSendTrafficRate u = x').
Proof.
  assert (Hfirst : forall B,
             value (Bras.load_bras_data bras_src) = DataFrame B ->
             NoDup (map Reconcile.bras_month_loc B)).
  { intros B HB.
    destruct (load_bras_data_frame bras_src B HB) as [->|[rows [_ Hload]]].
    - constructor.
    - now apply (bras_month_loc_NoDup rows). }
  assert (Hnames : forall B b,
             value (Bras.load_bras_data bras_src) = DataFrame B -> In b B ->
             Bras.Month_Name b = Calendar.strftime_b_Y (Bras.Month b)).
  { intros B b HB Hb.
    destruct (load_bras_data_frame bras_src B HB) as [->|[rows [_ Hload]]].
    - contradiction.
    - now apply (loaded_Month_Name rows B). }
  split; [exact Hfirst|]. split.
  - intros A HA Hnd. unfold Reconcile.pipeline. rewrite HA.
    destruct (value (Bras.load_bras_data bras_src)) as [B|] eqn:HB.
    + apply combine_month_loc_NoDup; auto.
      * intros b Hb. now apply (Hnames B).
      * intros a Ha. now apply (aaa_Month_Name aaa_src A).
    + simpl. destruct A; constructor.
  - intros bras_rows u r p x -> Hu Hr Hge Hloc Hmonth HM Hrate.
    unfold Reconcile.pipeline in Hu.
    destruct (Aaa.load_aaa_data aaa_src) as [A|] eqn:HA.
    2:{ destruct aaa_src; discriminate. }
    destruct (value (Bras.load_bras_data (File bras_rows))) as [B|] eqn:HB.
    2:{ simpl in Hu. contradiction. }
    destruct (load_bras_data_frame _ B HB) as [->|[rows [Hrows Hload]]].
    { simpl in Hu. contradiction. }
    inversion Hrows; subst rows. clear Hrows.
    set (readings := map Bras.reading_of (filter Bras.is_100GE bras_rows)).
    set (k := (p, Reconcile.Location u) : Bras.Key).
    destruct (load_bras_frame_Ok bras_rows B Hload) as [_ [Hconv HBeq]].
    assert (Hrq : In r (filter Bras.is_100GE bras_rows))
      by (apply filter_In; auto).
    assert (Hgk : Bras.group_key (Bras.reading_of r) = Some k).
    { unfold Bras.group_key. simpl. now rewrite Hmonth, Hloc. }
    assert (Hk : In k (Bras.group_keys readings)).
    { apply In_group_keys. exists (Bras.reading_of r).
      split; [now apply in_map | exact Hgk]. }
    assert (Hb0 : In (Bras.monthly_row readings k) B).
    { apply (loaded_row bras_rows B Hload). eauto. }
    rewrite (combine_peak B A
               (fun b Hb => Hnames B b eq_refl Hb)
               (fun a Ha => aaa_Month_Name aaa_src A a HA Ha)
               u (Bras.monthly_row readings k)
               (Hfirst B eq_refl) Hu Hb0).
    2:{ unfold Reconcile.bras_month_loc, Reconcile.month_loc. simpl.
        now rewrite HM. }
    simpl Bras.MaxSendTrafficRate.
    destruct (nanmax_ge
                (map Bras.rd_Rate (filter (Bras.in_group k) readings)) x)
      as [mx [Hmx Hle]].
    { apply in_map_iff. exists (Bras.reading_of r). split.
      - simpl. now rewrite Hrate.
      - apply filter_In. split; [now apply in_map|].
        unfold Bras.in_group. rewrite Hgk.
        now destruct (Bras.key_eq_dec k k). }
    rewrite Hmx. simpl. split; [exact Hle|].
    apply nanmax_In in Hmx.
    apply in_map_iff in Hmx as [y [Hy Hyin]].
    apply filter_In in Hyin as [Hyin Hyk].
    apply in_map_iff in Hyin as [r' [<- Hr']].
    unfold Bras.in_group in Hyk.
    destruct (Bras.group_key (Bras.reading_of r')) as [k'|] eqn:Hk';
      [|discriminate].
    destruct (Bras.key_eq_dec k' k) as [->|]; [|discriminate].
    destruct (Hconv r' Hr') as [[x' Hx'] Hp'].
    destruct (group_key_reading r' k (ex_intro _ x' Hx') Hp' Hk')
      as [Hmonth' Hloc'].
    simpl in Hy. rewrite Hx' in Hy. subst x'.
    apply filter_In in Hr' as [Hr' Hge'].
    exists r', mx. repeat split; assumption.
Qed.

Lemma C5_witness :
  NoDup (map Reconcile.month_loc
             (value (Reconcile.pipeline (File [Scenario.bras_row])
                                        (File [Scenario.aaa_row])))).
Proof.
  eapply (proj1 (proj2 (C5_one_row_per_key_and_max
                          (File [Scenario.bras_row])
                          (File [Scenario.aaa_row])))).
  - reflexivity.
  - vm_compute. constructor; [intros []|constructor].
Defined.

(** The claim C5 fails on a pair of loader outputs: the AAA loader keeps
    both rows of a source that repeats a month and a location, and the
    Unified Record then has two rows with one (month, location) key. *)
Lemma C5_counterexample :
  ~ NoDup (map Reconcile.month_loc
               (value (Reconcile.pipeline
                         (File [Scenario.bras_row])
                         (File [Scenario.aaa_row; Scenario.aaa_row])))).
Proof.
  intros H. vm_compute in H.
  inversion H as [|k l Hnotin _]. apply Hnotin. left. reflexivity.
Qed.

(** ** The end-to-end scenario *)

Lemma aaa_location_not_device (x : string) :
  PyStr.split_first "_" x ++ "_AAA" <> "MDY_BRAS01".
Proof.
  intros H.
  destruct x as [|c1 x]; simpl in H; [discriminate|].
  destruct (Ascii.eqb c1 "_") eqn:E1; simpl in H; [discriminate|].
  inversion H as [[Hc1 H1]]; clear H.
  destruct x as [|c2 x]; simpl in H1; [discriminate|].
  destruct (Ascii.eqb c2 "_") eqn:E2; simpl in H1; [discriminate|].
  inversion H1 as [[Hc2 H2]]; clear H1.
  destruct x as [|c3 x]; simpl in H2; [discriminate|].
  destruct (Ascii.eqb c3 "_") eqn:E3; simpl in H2; [discriminate|].
  inversion H2 as [[Hc3 H3]]; clear H2.
  destruct x as [|c4 x]; simpl in H3; [discriminate|].
  destruct (Ascii.eqb c4 "_") eqn:E4; simpl in H3; [discriminate|].
  inversion H3 as [[Hc4 H4]]. subst c4. discriminate.
Qed.

Lemma aaa_frame_location (src : source Aaa.Row) (A : list Aaa.Monthly)
      (a : Aaa.Monthly) :
  Aaa.load_aaa_data src = DataFrame A -> In a A ->
  exists x, Aaa.Location a = PyStr.split_first "_" x ++ "_AAA".
Proof.
  destruct src as [|rows]; simpl; intros H; inversion H; subst A.
  - contradiction.
  - intros Ha. apply sort_by_In, In_keep_rows in Ha as [r [_ Hr]].
    unfold Aaa.monthly_row in Hr.
    destruct (Aaa.parse_date _); [|discriminate].
    inversion Hr. simpl. eauto.
Qed.

(** C1, as the code has it.  When the only qualifying row of the BRAS
    source is the row of the scenario (location [Mandalay, BRAS01],
    interface [100GE1/0/1], rate [45,000], end time [2025-04-15]) and the
    AAA loader returns a non-empty frame, the Unified Record has a row for
    April 2025 whose location key is [Mandalay_BRAS01], the first segment
    of the location field followed by [_] and the device tag, with peak
    rate 45000 and utilization 45; no row has the key [MDY_BRAS01]. *)
Theorem C1_scenario_location_key
        (bras_rows : list Bras.Row) (aaa_src : source Aaa.Row)
        (a : Aaa.Monthly) (A : list Aaa.Monthly) :
  filter Bras.is_100GE bras_rows = [Scenario.bras_row] ->
  Aaa.load_aaa_data aaa_src = DataFrame (a :: A) ->
  (exists u,
      In u (value (Reconcile.pipeline (File bras_rows) aaa_src))
      /\ Reconcile.Location u = "Mandalay_BRAS01"
      /\ Reconcile.Location u
         = PyStr.split_first "," "Mandalay, BRAS01" ++ "_" ++ "BRAS01"
      /\ Reconcile.Month u = Calendar.of_civil 2025 4 1 0 0 0
      /\ Reconcile.Month_Name u = "Apr 2025"
      /\ Reconcile.MaxSendTrafficRate u = 45000%Q
      /\ (Reconcile.Utilization_Pct u == 45)%Q)
  /\ (forall u,
        In u (value (Reconcile.pipeline (File bras_rows) aaa_src)) ->
        Reconcile.Location u <> "MDY_BRAS01").
Proof.
  intros Hq HA.
  set (b0 := Bras.mkMonthly (Calendar.of_civil 2025 4 1 0 0 0)
                            "Mandalay_BRAS01" (Some 45000%Q) (Some 100000%Q)
                            (Some (45000 / 100000 * 100)%Q) "Apr 2025").
  assert (HB : value (Bras.load_bras_data (File bras_rows))
               = DataFrame [b0]).
  { unfold Bras.load_bras_data, Bras.load_bras_frame. rewrite Hq.
    vm_compute. reflexivity. }
  unfold Reconcile.pipeline. rewrite HB, HA.
  assert (HL : [b0] <> []) by discriminate.
  assert (HR : a :: A <> []) by discriminate.
  split.
  - assert (Hm : exists m,
               In m (Reconcile.joined [b0] (a :: A))
               /\ (m = Reconcile.left_only b0
                   \/ exists a', m = Reconcile.both b0 a')).
    { destruct (Reconcile.matches_of b0 (a :: A)) as [|a' ms] eqn:Hms.
      - exists (Reconcile.left_only b0). split; [|now left].
        apply In_joined. left. exists b0. simpl. auto.
      - exists (Reconcile.both b0 a'). split; [|right; eauto].
        assert (Hin : In a' (Reconcile.matches_of b0 (a :: A)))
          by (rewrite Hms; now left).
        apply filter_In in Hin as [Hin Hk]. apply join_key_eqb_eq in Hk.
        apply In_joined. right; left. exists b0, a'. simpl. auto. }
    destruct Hm as [m [Hm Hshape]].
    exists (Reconcile.fill m). split.
    + apply In_combine_data; eauto.
    + destruct Hshape as [->|[a' ->]];
        (split; [reflexivity|]); (split; [reflexivity|]);
        (split; [reflexivity|]); (split; [reflexivity|]);
        (split; [reflexivity|]); vm_compute; reflexivity.
  - intros u Hu.
    apply In_combine_data in Hu as [m [Hm ->]]; try assumption.
    apply In_joined in Hm
      as [[b [Hb [_ ->]]]|[[b [a' [Hb [_ [_ ->]]]]]|[a' [Ha' [_ ->]]]]].
    + destruct Hb as [<-|[]]. simpl. discriminate.
    + destruct Hb as [<-|[]]. simpl. discriminate.
    + simpl.
      destruct (aaa_frame_location aaa_src (a :: A) a' HA Ha') as [x ->].
      apply aaa_location_not_device.
Qed.

Lemma C1_witness :
  exists u,
    In u (value (Reconcile.pipeline (File [Scenario.bras_row])
                                    (File [Scenario.aaa_row])))
    /\ Reconcile.Location u = "Mandalay_BRAS01".
Proof.
  destruct (C1_scenario_location_key
              [Scenario.bras_row] (File [Scenario.aaa_row])
              (Aaa.mkMonthly 1743465600000000000 "Apr 2025" "MDY_AAA"
                             (Some 12000%Q)) [])
    as [[u [Hu [Hloc _]]] _].
  - reflexivity.
  - vm_compute. reflexivity.
  - exists u. split; assumption.
Defined.

(** The claim C1 fails on the scenario: no row of its Unified Record has
    the location key [MDY_BRAS01]. *)
Lemma C1_counterexample :
  ~ exists u,
      In u (value (Reconcile.pipeline (File [Scenario.bras_row])
                                      (File [Scenario.aaa_row])))
      /\ Reconcile.Location u = "MDY_BRAS01".
Proof.
  intros [u [Hu Hloc]]. vm_compute in Hu.
  destruct Hu as [<-|[<-|[]]]; discriminate.
Qed.

(** ** Texts of decimal digits *)

Lemma digit_not_space (a : ascii) :
  PyStr.is_digit a = true -> PyStr.is_space a = false.
Proof.
  unfold PyStr.is_digit, PyStr.is_space. cbv zeta.
  rewrite andb_true_iff, !N.leb_le. intros [H1 H2].
  rewrite orb_false_iff, andb_false_iff, N.eqb_neq, !N.leb_gt. lia.
Qed.

Lemma digit_lower (a : ascii) :
  PyStr.is_digit a = true -> PyStr.lower_ascii a = a.
Proof.
  unfold PyStr.is_digit, PyStr.lower_ascii. cbv zeta.
  rewrite andb_true_iff, !N.leb_le. intros [H1 H2].
  destruct (_ && _)%N eqn:E; [|reflexivity].
  rewrite andb_true_iff, !N.leb_le in E. lia.
Qed.

Lemma digit_neq (a c : ascii) :
  PyStr.is_digit a = true -> PyStr.is_digit c = false ->
  Ascii.eqb a c = false.
Proof. intros Ha Hc. apply Ascii.eqb_neq. intros ->. congruence. Qed.

Lemma all_digits_head (a : ascii) (s : string) :
  PyStr.all_digits (String a s) = true ->
  PyStr.is_digit a = true /\ PyStr.all_digits s = true.
Proof. simpl. apply andb_true_iff. Qed.

Lemma rev_acc_rev_acc (s : string) :
  forall acc acc',
    PyStr.rev_acc (PyStr.rev_acc s acc) acc' = PyStr.rev_acc acc (s ++ acc').
Proof.
  induction s as [|a s IH]; intros acc acc'; simpl; [reflexivity|].
  now rewrite IH.
Qed.

Lemma rev_rev (s : string) : PyStr.rev (PyStr.rev s) = s.
Proof.
  unfold PyStr.rev. rewrite rev_acc_rev_acc. simpl. apply append_empty_r.
Qed.

Lemma all_digits_rev_acc (s : string) :
  forall acc,
    PyStr.all_digits (PyStr.rev_acc s acc)
    = PyStr.all_digits s && PyStr.all_digits acc.
Proof.
  induction s as [|a s IH]; intros acc; simpl; [reflexivity|].
  rewrite IH. simpl. now destruct (PyStr.is_digit a), (PyStr.all_digits s).
Qed.

Lemma lstrip_head (a : ascii) (s : string) :
  PyStr.is_space a = false -> PyStr.lstrip (String a s) = String a s.
Proof. intros H. simpl. now rewrite H. Qed.

Lemma lstrip_digits (s : string) :
  PyStr.all_digits s = true -> PyStr.lstrip s = s.
Proof.
  destruct s as [|a s]; [reflexivity|]. intros H.
  apply all_digits_head in H as [Ha _].
  apply lstrip_head, digit_not_space, Ha.
Qed.

(** [strip], [lower] and the typo repair leave a text of digits as it
    is. *)
Lemma strip_digits (s : string) :
  PyStr.all_digits s = true -> PyStr.strip s = s.
Proof.
  intros H. unfold PyStr.strip. rewrite (lstrip_digits s H).
  rewrite lstrip_digits; [apply rev_rev|].
  unfold PyStr.rev. rewrite all_digits_rev_acc, H. reflexivity.
Qed.

Lemma lower_digits (s : string) :
  PyStr.all_digits s = true -> PyStr.lower s = s.
Proof.
  induction s as [|a s IH]; [reflexivity|]. intros H.
  apply all_digits_head in H as [Ha Hs].
  simpl. now rewrite (digit_lower a Ha), (IH Hs).
Qed.

Lemma split_first_head (c a : ascii) (s : string) :
  Ascii.eqb a c = false ->
  PyStr.split_first c (String a s) = String a (PyStr.split_first c s).
Proof. intros H. simpl. now rewrite H. Qed.

Lemma split_first_digits (c : ascii) (s : string) :
  PyStr.is_digit c = false -> PyStr.all_digits s = true ->
  PyStr.split_first c s = s.
Proof.
  intros Hc. induction s as [|a s IH]; [reflexivity|]. intros H.
  apply all_digits_head in H as [Ha Hs].
  rewrite split_first_head by now apply digit_neq.
  now rewrite (IH Hs).
Qed.

Lemma replace_typo_skip (a : ascii) (s : string) :
  Ascii.eqb a "A" = false ->
  PyStr.replace "Aprl" "Apr" (String a s)
  = String a (PyStr.replace "Aprl" "Apr" s).
Proof.
  intros H. unfold PyStr.replace. cbn [PyStr.replace_from].
  replace (String.prefix "Aprl" (String a s)) with false; [reflexivity|].
  cbn [String.prefix].
  destruct (ascii_dec "A" a) as [<-|_]; [discriminate H|reflexivity].
Qed.

Lemma replace_typo_digits (s : string) :
  PyStr.all_digits s = true -> PyStr.replace "Aprl" "Apr" s = s.
Proof.
  induction s as [|a s IH]; [reflexivity|]. intros H.
  apply all_digits_head in H as [Ha Hs].
  rewrite replace_typo_skip by now apply digit_neq.
  now rewrite (IH Hs).
Qed.

(** The sign that [float] finds before a digit: none. *)
Lemma sign_of_digit (a : ascii) (rest : string) :
  PyStr.is_digit a = true ->
  match String a rest with
  | String "-" r => (true, r)
  | String "+" r => (false, r)
  | _ => (false, String a rest)
  end = (false, String a rest).
Proof.
  intros Ha.
  destruct a as [[] [] [] [] [] [] [] []];
    try reflexivity; vm_compute in Ha; discriminate Ha.
Qed.

(** [float] on a text of digits. *)
Lemma py_float_digits (s : string) (n : Z) :
  PyStr.all_digits s = true -> PyStr.nat_digits s = Some n ->
  PyNum.py_float s = Ok (Some (inject_Z n)).
Proof.
  intros Hall Hn. unfold PyNum.py_float. cbv zeta.
  rewrite (strip_digits s Hall), (lower_digits s Hall).
  destruct (String.eqb_spec s "nan") as [->|_]; [discriminate Hall|].
  destruct s as [|a rest]; [discriminate Hn|].
  destruct (all_digits_head a rest Hall) as [Ha _].
  rewrite (sign_of_digit a rest Ha).
  unfold PyNum.unsigned_decimal. cbv zeta.
  rewrite (split_first_digits "." (String a rest) eq_refl Hall).
  rewrite Nat.eqb_refl, Hn. reflexivity.
Qed.

(** The digits that print a number read back as the number. *)
Lemma digits_value_of_uint_acc (d : Decimal.uint) :
  forall (acc : Z) (p : positive),
    acc = Z.pos p ->
    PyStr.digits_value acc (NilEmpty.string_of_uint d)
    = Some (Z.pos (Pos.of_uint_acc d p)).
Proof.
  induction d; intros acc p Hacc;
    cbn [NilEmpty.string_of_uint PyStr.digits_value Pos.of_uint_acc];
    [now subst| ..];
    match goal with
    | |- context [PyStr.is_digit ?c] =>
        change (PyStr.is_digit c) with true
    end;
    cbv iota; apply IHd; subst acc;
    match goal with
    | |- context [Z.of_N (N_of_ascii ?c)] =>
        let v := eval vm_compute in (Z.of_N (N_of_ascii c)) in
        change (Z.of_N (N_of_ascii c)) with v
    end; lia.
Qed.

Lemma digits_value_of_uint (d : Decimal.uint) :
  PyStr.digits_value 0 (NilEmpty.string_of_uint d)
  = Some (Z.of_N (Pos.of_uint d)).
Proof.
  induction d;
    cbn [NilEmpty.string_of_uint PyStr.digits_value Pos.of_uint];
    [reflexivity| ..];
    match goal with
    | |- context [PyStr.is_digit ?c] =>
        change (PyStr.is_digit c) with true
    end;
    cbv iota;
    [exact IHd | apply digits_value_of_uint_acc; reflexivity ..].
Qed.

Lemma all_digits_of_uint (d : Decimal.uint) :
  PyStr.all_digits (NilEmpty.string_of_uint d) = true.
Proof. induction d; simpl; [reflexivity | exact IHd ..]. Qed.

Lemma to_uint_not_Nil (n : N) : N.to_uint n <> Decimal.Nil.
Proof.
  destruct n as [|p]; [discriminate|].
  apply DecimalPos.Unsigned.to_uint_nonnil.
Qed.

Lemma of_Z_digits (n : Z) :
  PyStr.of_Z n = NilEmpty.string_of_uint (N.to_uint (Z.to_N n)).
Proof.
  unfold PyStr.of_Z, NilZero.string_of_uint.
  pose proof (to_uint_not_Nil (Z.to_N n)) as H.
  now destruct (N.to_uint (Z.to_N n)).
Qed.

Lemma all_digits_of_Z (n : Z) : PyStr.all_digits (PyStr.of_Z n) = true.
Proof. rewrite of_Z_digits. apply all_digits_of_uint. Qed.

Lemma nat_digits_of_Z (n : Z) :
  0 <= n -> PyStr.nat_digits (PyStr.of_Z n) = Some n.
Proof.
  intros Hn. rewrite of_Z_digits.
  pose proof (to_uint_not_Nil (Z.to_N n)) as Hnil.
  pose proof (digits_value_of_uint (N.to_uint (Z.to_N n))) as H.
  change (Pos.of_uint (N.to_uint (Z.to_N n)))
    with (N.of_uint (N.to_uint (Z.to_N n))) in H.
  rewrite DecimalN.Unsigned.of_to, Z2N.id in H by exact Hn.
  destruct (N.to_uint (Z.to_N n)); [congruence | exact H ..].
Qed.

(** ** The encodings of a date *)

Lemma of_civil_day (y m d : Z) :
  Calendar.of_civil y m d 0 0 0 / Calendar.ns_per_day
  = Calendar.days_from_civil y m d.
Proof.
  unfold Calendar.of_civil.
  change (((0 * 60 + 0) * 60 + 0) * Calendar.ns_per_second) with 0.
  rewrite Z.add_0_r. apply Z.div_mul. discriminate.
Qed.

(** The label of midnight of a valid date is the label of its month. *)
Lemma strftime_of_civil (y m d : Z) :
  Calendar.valid_date y m d = true ->
  Calendar.strftime_b_Y (Calendar.of_civil y m d 0 0 0)
  = Calendar.month_label y m.
Proof.
  intros Hvalid.
  unfold Calendar.strftime_b_Y, Calendar.year_of, Calendar.month_of,
    Calendar.date_of.
  rewrite of_civil_day, (civil_from_days_from_civil y m d Hvalid).
  reflexivity.
Qed.

Lemma days_from_civil_bounds (y m d : Z) :
  1969 <= y <= 2068 -> 1 <= m <= 12 -> 1 <= d <= 31 ->
  -366 <= Calendar.days_from_civil y m d <= 36600.
Proof.
  intros Hy Hm Hd. unfold Calendar.days_from_civil. cbv zeta.
  destruct (Z.leb_spec m 2); div_lia.
Qed.

Lemma of_civil_in_bounds (y m d : Z) :
  1969 <= y <= 2068 -> Calendar.valid_date y m d = true ->
  Calendar.checked (Calendar.of_civil y m d 0 0 0)
  = Ok (Calendar.of_civil y m d 0 0 0).
Proof.
  intros Hy Hvalid.
  destruct (valid_date_spec y m d Hvalid) as [Hm [Hd _]].
  pose proof (days_from_civil_bounds y m d Hy Hm Hd) as Hb.
  unfold Calendar.checked.
  replace (Calendar.in_bounds (Calendar.of_civil y m d 0 0 0)) with true;
    [reflexivity|].
  symmetry. unfold Calendar.in_bounds, Calendar.of_civil.
  change (((0 * 60 + 0) * 60 + 0) * Calendar.ns_per_second) with 0.
  change Calendar.ns_per_day with 86400000000000.
  rewrite andb_true_iff, !Z.leb_le. lia.
Qed.

(** The serial number of a date, read as a count of days from
    1899-12-30, is midnight of the date. *)
Lemma of_serial_serial (y m d : Z) :
  1969 <= y <= 2068 -> Calendar.valid_date y m d = true ->
  Calendar.of_serial (inject_Z (Encoding.serial y m d))
  = Ok (Calendar.of_civil y m d 0 0 0).
Proof.
  intros Hy Hvalid. unfold Calendar.of_serial.
  rewrite <- inject_Z_mult, Qfloor_Z.
  replace (Calendar.days_from_civil 1899 12 30 * Calendar.ns_per_day
           + Encoding.serial y m d * Calendar.ns_per_day)
    with (Calendar.of_civil y m d 0 0 0).
  - now apply of_civil_in_bounds.
  - unfold Encoding.serial, Calendar.of_civil.
    change (((0 * 60 + 0) * 60 + 0) * Calendar.ns_per_second) with 0.
    ring.
Qed.

Lemma serial_nonneg (y m d : Z) :
  1969 <= y <= 2068 -> Calendar.valid_date y m d = true ->
  0 <= Encoding.serial y m d.
Proof.
  intros Hy Hvalid.
  destruct (valid_date_spec y m d Hvalid) as [Hm [Hd _]].
  pose proof (days_from_civil_bounds y m d Hy Hm Hd) as Hb.
  unfold Encoding.serial.
  change (Calendar.days_from_civil 1899 12 30) with (-25569). lia.
Qed.

Lemma label_of_serial_text (y m d : Z) :
  1969 <= y <= 2068 -> Calendar.valid_date y m d = true ->
  Encoding.label_of_text (Encoding.serial_text y m d)
  = Some (Calendar.month_label y m).
Proof.
  intros Hy Hvalid.
  unfold Encoding.label_of_text, Encoding.label_of, Encoding.serial_text.
  rewrite (replace_typo_digits _ (all_digits_of_Z _)).
  unfold Aaa.parse_date, Aaa.try_serial.
  rewrite (py_float_digits _ (Encoding.serial y m d) (all_digits_of_Z _))
    by (apply nat_digits_of_Z; now apply serial_nonneg).
  cbn [bind]. rewrite (of_serial_serial y m d Hy Hvalid). cbn [bind option_map].
  now rewrite strftime_of_civil.
Qed.

Lemma label_of_mon_yy_text (y m : Z) :
  1 <= m <= 12 ->
  Encoding.mon_yy_read y m = true ->
  Encoding.label_of_text (Encoding.mon_yy_text y m)
  = Some (Calendar.month_label y m).
Proof.
  intros Hm. unfold Encoding.mon_yy_read, Encoding.label_of_text,
    Encoding.label_of.
  destruct (Aaa.parse_date _) as [t|]; [|discriminate].
  intros Ht. apply Z.eqb_eq in Ht. subst t. cbn [option_map].
  now rewrite strftime_of_civil by now apply valid_first_day.
Qed.

Lemma padded_spec (w : nat) (n : Z) :
  Encoding.padded w n = true ->
  String.length (PyStr.zero_pad w n) = w
  /\ PyStr.all_digits (PyStr.zero_pad w n) = true
  /\ PyStr.nat_digits (PyStr.zero_pad w n) = Some n.
Proof.
  unfold Encoding.padded. cbv zeta.
  rewrite !andb_true_iff, Nat.eqb_eq. intros [[Hlen Hall] Hv].
  destruct (PyStr.nat_digits _) as [v|]; [|discriminate].
  apply Z.eqb_eq in Hv. now subst.
Qed.

Lemma length_2 (s : string) :
  String.length s = 2%nat -> exists a b, s = String a (String b "").
Proof.
  destruct s as [|a [|b [|c s]]]; try discriminate. intros _. now exists a, b.
Qed.

Lemma length_4 (s : string) :
  String.length s = 4%nat ->
  exists a b c d, s = String a (String b (String c (String d ""))).
Proof.
  destruct s as [|a [|b [|c [|d [|e s]]]]]; try discriminate.
  intros _. now exists a, b, c, d.
Qed.

(** The readings of a text made of a year on four digits, a month and a
    day on two digits each, with hyphens between them: it is no number and
    no [Mon-YY] text, the typo repair leaves it as it is, and
    [pd.to_datetime] reads its date. *)
Lemma iso_readings (Y M D : string) (y m d : Z) :
  String.length Y = 4%nat -> PyStr.all_digits Y = true ->
  PyStr.nat_digits Y = Some y ->
  String.length M = 2%nat -> PyStr.all_digits M = true ->
  PyStr.nat_digits M = Some m ->
  String.length D = 2%nat -> PyStr.all_digits D = true ->
  PyStr.nat_digits D = Some d ->
  Calendar.valid_date y m d = true ->
  let s := Y ++ "-" ++ M ++ "-" ++ D in
  PyStr.replace "Aprl" "Apr" s = s
  /\ PyNum.py_float s = Raise ValueError
  /\ Calendar.strptime_b_y s = Raise ValueError
  /\ Calendar.to_datetime s = Calendar.checked (Calendar.of_civil y m d 0 0 0).
Proof.
  intros HlY HaY HnY HlM HaM HnM HlD HaD HnD Hvalid.
  destruct (length_4 Y HlY) as [y1 [y2 [y3 [y4 ->]]]].
  destruct (length_2 M HlM) as [m1 [m2 ->]].
  destruct (length_2 D HlD) as [d1 [d2 ->]].
  apply all_digits_head in HaY as [Hy1 HaY].
  apply all_digits_head in HaY as [Hy2 HaY].
  apply all_digits_head in HaY as [Hy3 HaY].
  apply all_digits_head in HaY as [Hy4 _].
  apply all_digits_head in HaM as [Hm1 HaM].
  apply all_digits_head in HaM as [Hm2 _].
  apply all_digits_head in HaD as [Hd1 HaD].
  apply all_digits_head in HaD as [Hd2 _].
  cbv zeta. cbn [append].
  match goal with |- context [PyNum.py_float ?t] => set (s := t) end.
  split; [|split; [|split]].
  - unfold s.
    repeat first
      [ rewrite replace_typo_skip by (now apply digit_neq)
      | rewrite replace_typo_skip by reflexivity ].
    reflexivity.
  - unfold PyNum.py_float. cbv zeta.
    assert (Hstrip : PyStr.strip s = s).
    { unfold PyStr.strip, s.
      rewrite lstrip_head by now apply digit_not_space.
      unfold PyStr.rev. cbn [PyStr.rev_acc].
      rewrite lstrip_head by now apply digit_not_space.
      reflexivity. }
    rewrite Hstrip.
    destruct (String.eqb_spec (PyStr.lower s) "nan") as [E|_];
      [apply (f_equal String.length) in E; discriminate E|].
    unfold s. rewrite (sign_of_digit y1 _ Hy1). fold s.
    unfold PyNum.unsigned_decimal. cbv zeta.
    assert (Hsplit : PyStr.split_first "." s = s).
    { unfold s.
      repeat first
        [ rewrite split_first_head by (now apply digit_neq)
        | rewrite split_first_head by reflexivity ].
      reflexivity. }
    rewrite Hsplit, Nat.eqb_refl.
    unfold s. cbn [PyStr.nat_digits PyStr.digits_value].
    rewrite Hy1, Hy2, Hy3, Hy4. reflexivity.
  - reflexivity.
  - unfold Calendar.to_datetime. cbv zeta.
    assert (Hfy : Calendar.field 0 4 s = Some y) by exact HnY.
    assert (Hfm : Calendar.field 5 2 s = Some m) by exact HnM.
    assert (Hfd : Calendar.field 8 2 s = Some d) by exact HnD.
    rewrite Hfy, Hfm, Hfd.
    change (Calendar.is_sep 4 "-" s) with true.
    change (Calendar.is_sep 7 "-" s) with true.
    rewrite Hvalid. reflexivity.
Qed.

Lemma label_of_iso_text (y m d : Z) :
  1969 <= y <= 2068 -> Calendar.valid_date y m d = true ->
  Encoding.padded 4 y = true ->
  Encoding.padded 2 m = true ->
  Encoding.padded 2 d = true ->
  Encoding.label_of_text (Encoding.iso_text y m d)
  = Some (Calendar.month_label y m).
Proof.
  intros Hy Hvalid HY HM HD.
  destruct (padded_spec _ _ HY) as [HlY [HaY HnY]].
  destruct (padded_spec _ _ HM) as [HlM [HaM HnM]].
  destruct (padded_spec _ _ HD) as [HlD [HaD HnD]].
  destruct (iso_readings _ _ _ y m d HlY HaY HnY HlM HaM HnM HlD HaD HnD
              Hvalid) as [Hrep [Hfloat [Hstrp Hdt]]].
  unfold Encoding.label_of_text, Encoding.label_of, Encoding.iso_text.
  rewrite Hrep. unfold Aaa.parse_date, Aaa.try_serial.
  rewrite Hfloat. cbn [bind]. rewrite Hstrp, Hdt.
  rewrite (of_civil_in_bounds y m d Hy Hvalid). cbn [option_map].
  now rewrite strftime_of_civil.
Qed.

(** Checked on the years from 1969 to 2068, and on the numbers of a month
    or a day. *)
Lemma texts_in_year_all :
  forall_below 7 1969 Encoding.texts_in_year = true.
Proof. vm_compute. reflexivity. Qed.

Lemma padded_days : forallb (Encoding.padded 2) Encoding.days = true.
Proof. vm_compute. reflexivity. Qed.

Lemma In_months (m : Z) : 1 <= m <= 12 -> In m Encoding.months.
Proof.
  intros Hm. unfold Encoding.months. simpl.
  assert (m = 1 \/ m = 2 \/ m = 3 \/ m = 4 \/ m = 5 \/ m = 6 \/ m = 7
          \/ m = 8 \/ m = 9 \/ m = 10 \/ m = 11 \/ m = 12) by lia.
  intuition auto.
Qed.

Lemma In_days (d : Z) : 1 <= d <= 31 -> In d Encoding.days.
Proof.
  intros Hd. unfold Encoding.days. simpl.
  assert (d = 1 \/ d = 2 \/ d = 3 \/ d = 4 \/ d = 5 \/ d = 6 \/ d = 7
          \/ d = 8 \/ d = 9 \/ d = 10 \/ d = 11 \/ d = 12 \/ d = 13
          \/ d = 14 \/ d = 15 \/ d = 16 \/ d = 17 \/ d = 18 \/ d = 19
          \/ d = 20 \/ d = 21 \/ d = 22 \/ d = 23 \/ d = 24 \/ d = 25
          \/ d = 26 \/ d = 27 \/ d = 28 \/ d = 29 \/ d = 30 \/ d = 31)
    by lia.
  intuition auto.
Qed.

Lemma is_label_refl (s : string) : Encoding.is_label s (Some s) = true.
Proof. apply String.eqb_refl. Qed.

Lemma agree_valid (y m d : Z) :
  1969 <= y <= 2068 ->
  Calendar.valid_date y m d = true ->
  Encoding.agree y m d = true.
Proof.
  intros Hy Hvalid.
  destruct (valid_date_spec y m d Hvalid) as [Hm [Hd _]].
  assert (Hyear : Encoding.texts_in_year y = true).
  { apply (forall_below_spec Encoding.texts_in_year 7 1969).
    - exact texts_in_year_all.
    - change (2 ^ Z.of_nat 7) with 128. lia. }
  unfold Encoding.texts_in_year in Hyear.
  replace (2068 <? y) with false in Hyear
    by (symmetry; apply Z.ltb_ge; lia).
  rewrite orb_false_l, andb_true_iff, forallb_forall in Hyear.
  destruct Hyear as [HY Hmon].
  pose proof padded_days as Hpad. rewrite forallb_forall in Hpad.
  unfold Encoding.agree. cbv zeta.
  unfold Encoding.label_of at 1. cbn [Aaa.parse_date option_map].
  rewrite (strftime_of_civil y m d Hvalid).
  rewrite (label_of_serial_text y m d Hy Hvalid).
  rewrite (label_of_mon_yy_text y m Hm (Hmon m (In_months m Hm))).
  rewrite (label_of_iso_text y m d Hy Hvalid HY
             (Hpad m (In_days m ltac:(lia))) (Hpad d (In_days d Hd))).
  now rewrite is_label_refl.
Qed.

(** [agree] holds on every date of the years from 1969 on that a two-digit
    year denotes. *)
Lemma agree_in_year_valid (y : Z) :
  1969 <= y -> Encoding.agree_in_year y = true.
Proof.
  intros Hy. unfold Encoding.agree_in_year.
  destruct (Z.ltb_spec 2068 y) as [_|Hle]; [reflexivity|].
  rewrite orb_false_l, forallb_forall. intros m _.
  rewrite forallb_forall. intros d _.
  destruct (Calendar.valid_date y m d) eqn:Hvalid; [|reflexivity].
  apply agree_valid; [lia | exact Hvalid].
Qed.

Lemma is_label_eq (expected : string) (o : option string) :
  Encoding.is_label expected o = true -> o = Some expected.
Proof.
  destruct o as [a|]; simpl; [|discriminate].
  intros H. apply String.eqb_eq in H. now subst.
Qed.

(** The label of a row of the AAA frame is the label of the text of its
    month cell. *)
Lemma monthly_row_label (r : Aaa.Row) :
  option_map Aaa.Month_Name (Aaa.monthly_row r)
  = Encoding.label_of_text (Aaa.Month_Year r).
Proof.
  unfold Aaa.monthly_row, Encoding.label_of_text, Encoding.label_of.
  now destruct (Aaa.parse_date _).
Qed.

(** C2, as the code has it.  For every date from 1969 to 2068 the four
    encodings of the date give the label of its month: the structured
    datetime given to [parse_date], and the texts of the spreadsheet serial
    number, of the [Mon-YY] form and of the ISO form as the loader reads
    them.  The serial number of 2025-04-01 is 45748 (45747 is
    2025-03-31). *)
Theorem C2_date_forms_agree (y m d : Z) :
  1969 <= y <= 2068 ->
  Calendar.valid_date y m d = true ->
  Encoding.label_of (Aaa.PyDatetime (Calendar.of_civil y m d 0 0 0))
  = Some (Calendar.month_label y m)
  /\ Encoding.label_of_text (Encoding.serial_text y m d)
     = Some (Calendar.month_label y m)
  /\ Encoding.label_of_text (Encoding.mon_yy_text y m)
     = Some (Calendar.month_label y m)
  /\ Encoding.label_of_text (Encoding.iso_text y m d)
     = Some (Calendar.month_label y m)
  /\ forall r,
       In (Aaa.Month_Year r)
          [Encoding.serial_text y m d; Encoding.mon_yy_text y m;
           Encoding.iso_text y m d] ->
       option_map Aaa.Month_Name (Aaa.monthly_row r)
       = Some (Calendar.month_label y m).
Proof.
  intros Hy Hvalid.
  pose proof (agree_valid y m d Hy Hvalid) as H.
  unfold Encoding.agree in H.
  apply andb_true_iff in H as [H H4].
  apply andb_true_iff in H as [H H3].
  apply andb_true_iff in H as [H1 H2].
  apply is_label_eq in H1, H2, H3, H4.
  repeat split; try assumption.
  intros r Hr. rewrite monthly_row_label.
  destruct Hr as [<-|[<-|[<-|[]]]]; assumption.
Qed.

Lemma C2_witness :
  Encoding.label_of_text "45748" = Some "Apr 2025"
  /\ Encoding.label_of_text "Apr-25" = Some "Apr 2025"
  /\ Encoding.label_of_text "2025-04-01" = Some "Apr 2025".
Proof.
  destruct (C2_date_forms_agree 2025 4 1) as [_ [H2 [H3 [H4 _]]]].
  - lia.
  - reflexivity.
  - repeat split; assumption.
Defined.

(** The claim C2 fails on its own example: the serial number 45747 is
    2025-03-31, and its label is [Mar 2025]. *)
Lemma C2_counterexample :
  Encoding.label_of (Aaa.PyStr "45747") = Some "Mar 2025"
  /\ Encoding.label_of_text "45747" <> Some "Apr 2025".
Proof.
  split; [vm_compute; reflexivity|].
  vm_compute. discriminate.
Qed.

(** * Further properties of the loaders, the reconciler and the dashboard *)

(** ** The interface filter and the rate text *)




Lemma remove_char_append (c : ascii) (s t : string) :
  PyStr.remove_char c (s ++ t)
  = PyStr.remove_char c s ++ PyStr.remove_char c t.
Proof.
  induction s as [|a s IH]; simpl; [reflexivity|].
  destruct (Ascii.eqb a c); simpl; now rewrite IH.
Qed.

(** X2.  Thousands separators are dropped wherever they stand: a comma
    inserted anywhere in the rate text of a row changes neither the parsed
    rate nor whether the text parses. *)
Theorem X2_commas_in_rate_are_ignored
        (loc iface : option string) (s t : string) (end_time : option string) :
  Bras.parse_rate (Bras.mkRow loc iface (s ++ "," ++ t) end_time)
  = Bras.parse_rate (Bras.mkRow loc iface (s ++ t) end_time).
Proof.
  unfold Bras.parse_rate. simpl.
  rewrite !remove_char_append. reflexivity.
Qed.

(** ** The rows of the BRAS frame *)




Lemma monthly_row_fields (df : list Bras.Reading) (k : Bras.Key) :
  Bras.Location (Bras.monthly_row df k) = snd k
  /\ Bras.Month (Bras.monthly_row df k) = Calendar.to_timestamp (fst k)
  /\ Bras.Month_Name (Bras.monthly_row df k)
     = Calendar.strftime_b_Y (Calendar.to_timestamp (fst k)).
Proof. repeat split; reflexivity. Qed.

Lemma pair_eq_components {A B : Type} (a : A) (b : B) (p : A * B) :
  (a, b) = p -> a = fst p /\ b = snd p.
Proof. intros <-. split; reflexivity. Qed.

Lemma period_label (p : Calendar.Period) :
  Calendar.to_period_M (Calendar.to_timestamp p) = p ->
  Calendar.strftime_b_Y (Calendar.to_timestamp p)
  = Calendar.month_label (fst p) (snd p).
Proof.
  intros Hp. unfold Calendar.strftime_b_Y.
  destruct (pair_eq_components _ _ p Hp) as [Hy Hm].
  rewrite Hy at 1. rewrite Hm at 1. reflexivity.
Qed.

(** X4.  When the load succeeds, every qualifying row that has a device
    tag and an end time is represented in the frame: a row of the frame has
    its location key, the first instant of the month of its end time as
    month, and the label of that month. *)
Theorem X4_dated_tagged_rows_are_represented
        (rows : list Bras.Row) (df : list Bras.Monthly) (r : Bras.Row)
        (p : Calendar.Period) (loc : string) :
  Bras.load_bras_frame rows = Ok (DataFrame df) ->
  In r rows ->
  Bras.is_100GE r = true ->
  Bras.Location_key r = Some loc ->
  Bras.parse_month r = Ok (Some p) ->
  exists b,
    In b df
    /\ Bras.Location b = loc
    /\ Bras.Month b = Calendar.to_timestamp p
    /\ Calendar.to_period_M (Bras.Month b) = p
    /\ Bras.Month_Name b = Calendar.month_label (fst p) (snd p).
Proof.
  intros Hload Hr Hge Hloc Hmonth.
  assert (Hk : In (p, loc)
                  (Bras.group_keys
                     (map Bras.reading_of (filter Bras.is_100GE rows)))).
  { apply In_group_keys. exists (Bras.reading_of r). split.
    - apply in_map, filter_In. auto.
    - unfold Bras.group_key.
      cbn [Bras.rd_Month Bras.rd_Location Bras.reading_of].
      now rewrite Hmonth, Hloc. }
  pose proof (parse_month_period r p Hmonth) as Hp.
  destruct (monthly_row_fields
              (map Bras.reading_of (filter Bras.is_100GE rows)) (p, loc))
    as [HL [HM HN]].
  cbn [fst snd] in HL, HM, HN.
  eexists. split.
  - apply (loaded_row rows df Hload). exists (p, loc). split; [exact Hk|].
    reflexivity.
  - rewrite HL, HM, HN. repeat split; try assumption.
    now apply period_label.
Qed.

Lemma X4_witness :
  exists b,
    In b [Bras.mkMonthly 1743465600000000000 "Mandalay_BRAS01"
                         (Some 45000%Q) (Some 100000%Q)
                         (Some (45000 / 100000 * 100)%Q) "Apr 2025"]
    /\ Bras.Location b = "Mandalay_BRAS01"
    /\ Bras.Month_Name b = "Apr 2025".
Proof.
  destruct (X4_dated_tagged_rows_are_represented
              [Scenario.bras_row]
              [Bras.mkMonthly 1743465600000000000 "Mandalay_BRAS01"
                              (Some 45000%Q) (Some 100000%Q)
                              (Some (45000 / 100000 * 100)%Q) "Apr 2025"]
              Scenario.bras_row (2025, 4) "Mandalay_BRAS01")
    as [b [Hb [Hloc [_ [_ Hname]]]]].
  - vm_compute. reflexivity.
  - now left.
  - reflexivity.
  - reflexivity.
  - vm_compute. reflexivity.
  - exists b. repeat split; assumption.
Defined.

(** ** Failures of the BRAS loader and of the reconciler *)



(** X5.  A failure of the BRAS loader never leaves a partial frame: when
    the loader shows a message its value is the empty frame, and the
    pipeline then returns an empty Unified Record through the guard of the
    reconciler, without a message of the reconciler. *)
Theorem X5_failed_load_is_empty
        (bras_src : source Bras.Row) (aaa_src : source Aaa.Row) :
  reported (Bras.load_bras_data bras_src) <> [] ->
  value (Bras.load_bras_data bras_src) = DataFrame []
  /\ Reconcile.pipeline bras_src aaa_src = mkOutcome [] [].
Proof.
  intros Hmsg.
  assert (Hval : value (Bras.load_bras_data bras_src) = DataFrame []).
  { destruct bras_src as [|rows]; [reflexivity|].
    unfold Bras.load_bras_data in *.
    destruct (Bras.load_bras_frame rows); [|reflexivity].
    simpl in Hmsg. congruence. }
  split; [exact Hval|].
  unfold Reconcile.pipeline. rewrite Hval. reflexivity.
Qed.

Lemma X5_witness :
  Reconcile.pipeline
    (File [Bras.mkRow (Some "MDY, BRAS01") (Some "100GE1/0/1")
                      "45,000" (Some "yesterday")])
    (File [Scenario.aaa_row])
  = mkOutcome [] [].
Proof.
  apply X5_failed_load_is_empty. vm_compute. discriminate.
Defined.


(** ** The location keys of the two loaders *)






Lemma suffix_same_length (a b x y : string) :
  a ++ x = b ++ y -> String.length x = String.length y -> x = y.
Proof.
  revert b. induction a as [|c a IH]; intros b Heq Hlen.
  - destruct b as [|c' b]; [exact Heq|].
    exfalso. simpl in Heq. rewrite Heq in Hlen. simpl in Hlen.
    rewrite length_append in Hlen. lia.
  - destruct b as [|c' b].
    + exfalso. simpl in Heq. rewrite <- Heq in Hlen. simpl in Hlen.
      rewrite length_append in Hlen. lia.
    + simpl in Heq. inversion Heq. now apply (IH b).
Qed.

Lemma last_digit (ds : string) :
  ds <> "" -> PyStr.all_digits ds = true ->
  exists ds' c, ds = ds' ++ String c "" /\ PyStr.is_digit c = true.
Proof.
  induction ds as [|a ds IH]; [congruence|].
  intros _ Hall. simpl in Hall. apply andb_true_iff in Hall as [Ha Hall].
  destruct ds as [|b ds].
  - exists "", a. auto.
  - destruct IH as [ds' [c [Heq Hc]]]; [discriminate | assumption|].
    exists (String a ds'), c. simpl. now rewrite <- Heq.
Qed.

(** A device key ends with a digit, an AAA key with a letter. *)
Lemma device_key_not_aaa_key (seg ds p : string) :
  ds <> "" -> PyStr.all_digits ds = true ->
  seg ++ "_" ++ "BRAS" ++ ds <> p ++ "_AAA".
Proof.
  intros Hne Hall Heq.
  destruct (last_digit ds Hne Hall) as [ds' [c [-> Hc]]].
  assert (Hlast : String c "" = "A").
  { apply (suffix_same_length (seg ++ "_" ++ "BRAS" ++ ds') (p ++ "_AA"));
      [|reflexivity].
    rewrite !append_assoc. simpl. simpl in Heq. exact Heq. }
  inversion Hlast; subst c. discriminate.
Qed.

Lemma bras_frame_location (src : source Bras.Row) (B : list Bras.Monthly)
      (b : Bras.Monthly) :
  value (Bras.load_bras_data src) = DataFrame B -> In b B ->
  exists seg ds,
    Bras.Location b = seg ++ "_" ++ "BRAS" ++ ds
    /\ ds <> "" /\ PyStr.all_digits ds = true.
Proof.
  intros HB Hb.
  destruct (load_bras_data_frame src B HB) as [HBnil|[rows [Hsrc Hload]]].
  { rewrite HBnil in Hb. contradiction. }
  destruct (proj1 (loaded_row rows B Hload b) Hb) as [k [Hk Hbk]].
  destruct (loaded_key rows B Hload k Hk) as [r [_ [_ [_ Hloc]]]].
  rewrite Hbk. simpl. now apply (Location_key_tag r).
Qed.

(** X8.  A row of the BRAS frame and a row of the AAA frame never join:
    their location keys differ (a device tag ends with a digit, an AAA key
    with [_AAA]).  Every row of the Unified Record of the pipeline is
    therefore either a BRAS row with user count 0 or an AAA row with peak
    rate 0, utilization 0 and capacity 100000; the Unified Record has as
    many rows as the two frames together when both are non-empty. *)
Theorem X8_loader_rows_never_join
        (bras_src : source Bras.Row) (aaa_src : source Aaa.Row)
        (B : list Bras.Monthly) (A : list Aaa.Monthly) :
  value (Bras.load_bras_data bras_src) = DataFrame B ->
  Aaa.load_aaa_data aaa_src = DataFrame A ->
  (forall b a, In b B -> In a A -> Bras.Location b <> Aaa.Location a)
  /\ (forall u,
        In u (value (Reconcile.pipeline bras_src aaa_src)) ->
        (exists b, In b B /\ u = Reconcile.fill (Reconcile.left_only b)
                   /\ Reconcile.AAA_Users u = 0%Q)
        \/ (exists a, In a A /\ u = Reconcile.fill (Reconcile.right_only a)
                      /\ Reconcile.MaxSendTrafficRate u = 0%Q
                      /\ Reconcile.Utilization_Pct u = 0%Q
                      /\ Reconcile.Total_Capacity u = 100000%Q))
  /\ (B <> [] -> A <> [] ->
      List.length (value (Reconcile.pipeline bras_src aaa_src))
      = (List.length B + List.length A)%nat).
Proof.
  intros HB HA.
  assert (Hdiff : forall b a, In b B -> In a A ->
                              Bras.Location b <> Aaa.Location a).
  { intros b a Hb Ha Heq.
    destruct (bras_frame_location bras_src B b HB Hb)
      as [seg [ds [Hloc [Hne Hall]]]].
    destruct (aaa_frame_location aaa_src A a HA Ha) as [x Hx].
    rewrite Hloc, Hx in Heq.
    exact (device_key_not_aaa_key seg ds _ Hne Hall Heq). }
  assert (Hkeys : forall b a, In b B -> In a A ->
                              Reconcile.bras_key b <> Reconcile.aaa_key a).
  { intros b a Hb Ha Hk. apply (Hdiff b a Hb Ha).
    unfold Reconcile.bras_key, Reconcile.aaa_key in Hk. now inversion Hk. }
  split; [exact Hdiff|].
  unfold Reconcile.pipeline. rewrite HB, HA. split.
  - intros u Hu.
    assert (HBne : B <> []) by (intros ->; simpl in Hu; contradiction).
    assert (HAne : A <> []).
    { intros ->. destruct B; simpl in Hu; contradiction. }
    apply In_combine_data in Hu as [m [Hm ->]]; try assumption.
    apply In_joined in Hm
      as [[b [Hb [_ ->]]]|[[b [a [Hb [Ha [Hk _]]]]]|[a [Ha [_ ->]]]]].
    + left. exists b. repeat split; assumption.
    + exfalso. now apply (Hkeys b a).
    + right. exists a. repeat split; assumption.
  - intros HBne HAne.
    rewrite (Permutation_length (combine_data_perm B A HBne HAne)).
    rewrite length_map. unfold Reconcile.joined.
    rewrite length_app, length_map.
    assert (Hleft : forall L, (forall b, In b L -> In b B) ->
                List.length (flat_map (Reconcile.left_rows A) L) = List.length L).
    { induction L as [|b L IH]; intros Hsub; [reflexivity|].
      simpl. rewrite length_app, IH by (intros; apply Hsub; simpl; auto).
      unfold Reconcile.left_rows.
      destruct (Reconcile.matches_of b A) as [|a ms] eqn:Hms; [reflexivity|].
      exfalso.
      assert (Hin : In a (Reconcile.matches_of b A))
        by (rewrite Hms; now left).
      apply filter_In in Hin as [Ha Hk]. apply join_key_eqb_eq in Hk.
      apply (Hkeys b a); auto. apply Hsub. now left. }
    rewrite Hleft by auto. f_equal.
    assert (Hright : forall R, (forall a, In a R -> In a A) ->
                filter (Reconcile.unmatched B) R = R).
    { induction R as [|a R IH]; intros Hsub; [reflexivity|].
      simpl.
      replace (Reconcile.unmatched B a) with true.
      - now rewrite IH by (intros; apply Hsub; simpl; auto).
      - symmetry. apply unmatched_spec. intros b Hb.
        apply Hkeys; auto. apply Hsub. now left. }
    now rewrite Hright.
Qed.

Lemma X8_witness :
  List.length (value (Reconcile.pipeline (File [Scenario.bras_row])
                                         (File [Scenario.aaa_row])))
  = 2%nat.
Proof.
  apply (X8_loader_rows_never_join
           (File [Scenario.bras_row]) (File [Scenario.aaa_row])
           [Bras.mkMonthly 1743465600000000000 "Mandalay_BRAS01"
                           (Some 45000%Q) (Some 100000%Q)
                           (Some (45000 / 100000 * 100)%Q) "Apr 2025"]
           [Aaa.mkMonthly 1743465600000000000 "Apr 2025" "MDY_AAA"
                          (Some 12000%Q)]).
  - vm_compute. reflexivity.
  - vm_compute. reflexivity.
  - discriminate.
  - discriminate.
Defined.

(** ** The AAA frame *)

Lemma sort_by_Z_sorted {A : Type} (f : A -> Z) (l : list A) :
  StronglySorted (fun a b => f a <= f b)
                 (sort_by (fun a b => f a <=? f b) l).
Proof.
  assert (Hs : StronglySorted (fun a b => (f a <=? f b) = true)
                              (sort_by (fun a b => f a <=? f b) l)).
  { apply sort_by_sorted.
    - intros x y. rewrite !Z.leb_le. lia.
    - intros x y z. rewrite !Z.leb_le. lia. }
  induction Hs as [|a l' _ IH Hall]; constructor; [exact IH|].
  eapply Forall_impl; [|exact Hall].
  intros b Hb. now apply Z.leb_le.
Qed.

(** X9.  The frame of the AAA loader is in ascending order of month and
    holds each source row whose month label parses exactly once, with the
    columns computed from that row: rows are neither merged nor
    de-duplicated. *)
Theorem X9_aaa_frame_sorted_and_complete (rows : list Aaa.Row) :
  exists A,
    Aaa.load_aaa_data (File rows) = DataFrame A
    /\ StronglySorted (fun a b => Aaa.Month a <= Aaa.Month b) A
    /\ Permutation A (Aaa.keep_rows rows)
    /\ (List.length A <= List.length rows)%nat.
Proof.
  eexists. split; [reflexivity|]. split; [|split].
  - apply (sort_by_Z_sorted Aaa.Month).
  - apply sort_by_perm.
  - rewrite (Permutation_length (sort_by_perm Aaa.month_leb _)).
    induction rows as [|r rows IH]; simpl; [lia|].
    destruct (Aaa.monthly_row r); simpl; lia.
Qed.

Lemma prefix_empty (s : string) : String.prefix "" s = true.
Proof. now destruct s. Qed.

Lemma replace_typo_head (s : string) :
  PyStr.replace "Aprl" "Apr" ("Aprl" ++ s)
  = "Apr" ++ PyStr.replace "Aprl" "Apr" s.
Proof.
  unfold PyStr.replace.
  change ("Aprl" ++ s) with (String "A" (String "p" (String "r" (String "l" s)))).
  cbn [PyStr.replace_from].
  replace (String.prefix "Aprl"
             (String "A" (String "p" (String "r" (String "l" s)))))
    with true by (simpl; now rewrite prefix_empty).
  reflexivity.
Qed.

Lemma replace_typo_free_head (s : string) :
  PyStr.replace "Aprl" "Apr" ("Apr-" ++ s)
  = "Apr-" ++ PyStr.replace "Aprl" "Apr" s.
Proof. reflexivity. Qed.

(** X10.  The known typo is repaired before the month label is parsed: a
    row whose label starts with [Aprl-] gives exactly the row of the frame
    that the same source row with [Apr-] gives, and is dropped exactly when
    that one is. *)
Theorem X10_typo_is_repaired (s loc users : string) :
  Aaa.monthly_row (Aaa.mkRow ("Aprl-" ++ s) loc users)
  = Aaa.monthly_row (Aaa.mkRow ("Apr-" ++ s) loc users).
Proof.
  unfold Aaa.monthly_row. cbn [Aaa.Month_Year Aaa.AAA_Location Aaa.User_Quantity].
  change ("Aprl-" ++ s) with ("Aprl" ++ "-" ++ s).
  rewrite replace_typo_head, replace_typo_free_head.
  assert (Hdash : PyStr.replace "Aprl" "Apr" ("-" ++ s)
                  = "-" ++ PyStr.replace "Aprl" "Apr" s) by reflexivity.
  rewrite Hdash. reflexivity.
Qed.

(** ** The Unified Record of the pipeline *)

(** X11.  The Unified Record of the pipeline is in ascending order of
    month, and the month label of each of its rows is the label of the
    month of that row, so that the two join columns agree on every row. *)
Theorem X11_unified_sorted_and_labelled
        (bras_src : source Bras.Row) (aaa_src : source Aaa.Row) :
  StronglySorted (fun a b => Reconcile.Month a <= Reconcile.Month b)
                 (value (Reconcile.pipeline bras_src aaa_src))
  /\ forall u,
       In u (value (Reconcile.pipeline bras_src aaa_src)) ->
       Reconcile.Month_Name u = Calendar.strftime_b_Y (Reconcile.Month u).
Proof.
  split; [apply combine_data_sorted|].
  intros u Hu. unfold Reconcile.pipeline in Hu.
  destruct (Aaa.load_aaa_data aaa_src) as [A|] eqn:HA.
  2:{ destruct aaa_src; discriminate. }
  destruct (value (Bras.load_bras_data bras_src)) as [B|] eqn:HB.
  2:{ simpl in Hu. contradiction. }
  assert (HBne : B <> []) by (intros ->; simpl in Hu; contradiction).
  assert (HAne : A <> []).
  { intros ->. destruct B; simpl in Hu; contradiction. }
  assert (Hnames : forall b, In b B ->
             Bras.Month_Name b = Calendar.strftime_b_Y (Bras.Month b)).
  { intros b Hb.
    destruct (load_bras_data_frame bras_src B HB) as [HBnil|[rows [_ Hload]]];
      [congruence|].
    now apply (loaded_Month_Name rows B). }
  apply In_combine_data in Hu as [m [Hm ->]]; try assumption.
  apply In_joined in Hm
    as [[b [Hb [_ ->]]]|[[b [a [Hb [_ [_ ->]]]]]|[a [Ha [_ ->]]]]].
  - now apply Hnames.
  - now apply Hnames.
  - now apply (aaa_Month_Name aaa_src A).
Qed.

(** ** The outer join on frames of any origin *)

(** X12.  The outer join loses no key and invents none: when both frames
    are non-empty, every join key of the BRAS frame and every join key of
    the AAA frame is the key of a row of the Unified Record, and the key of
    every row of the Unified Record is a key of one of the two frames; the
    Unified Record has at least as many rows as each frame. *)
Theorem X12_outer_join_keys (L : list Bras.Monthly) (R : list Aaa.Monthly) :
  L <> [] -> R <> [] ->
  (forall b, In b L ->
     exists u,
       In u (value (Reconcile.combine_data (DataFrame L) (DataFrame R)))
       /\ (Reconcile.Month u, Reconcile.Month_Name u, Reconcile.Location u)
          = Reconcile.bras_key b)
  /\ (forall a, In a R ->
        exists u,
          In u (value (Reconcile.combine_data (DataFrame L) (DataFrame R)))
          /\ (Reconcile.Month u, Reconcile.Month_Name u, Reconcile.Location u)
             = Reconcile.aaa_key a)
  /\ (forall u,
        In u (value (Reconcile.combine_data (DataFrame L) (DataFrame R))) ->
        (exists b, In b L
                   /\ (Reconcile.Month u, Reconcile.Month_Name u,
                       Reconcile.Location u) = Reconcile.bras_key b)
        \/ (exists a, In a R
                      /\ (Reconcile.Month u, Reconcile.Month_Name u,
                          Reconcile.Location u) = Reconcile.aaa_key a)).
Proof.
  intros HL HR. split; [|split].
  - intros b Hb.
    destruct (Reconcile.matches_of b R) as [|a ms] eqn:Hms.
    + exists (Reconcile.fill (Reconcile.left_only b)). split; [|reflexivity].
      apply In_combine_data; try assumption.
      exists (Reconcile.left_only b). split; [|reflexivity].
      apply In_joined. left. eauto.
    + assert (Hin : In a (Reconcile.matches_of b R))
        by (rewrite Hms; now left).
      apply filter_In in Hin as [Ha Hk]. apply join_key_eqb_eq in Hk.
      exists (Reconcile.fill (Reconcile.both b a)). split; [|reflexivity].
      apply In_combine_data; try assumption.
      exists (Reconcile.both b a). split; [|reflexivity].
      apply In_joined. right; left. exists b, a. auto.
  - intros a Ha.
    destruct (Reconcile.unmatched L a) eqn:Hun.
    + exists (Reconcile.fill (Reconcile.right_only a)). split; [|reflexivity].
      apply In_combine_data; try assumption.
      exists (Reconcile.right_only a). split; [|reflexivity].
      apply In_joined. right; right. exists a.
      split; [assumption|]. split; [|reflexivity].
      now apply unmatched_spec.
    + unfold Reconcile.unmatched in Hun. apply negb_false_iff in Hun.
      apply existsb_exists in Hun as [b [Hb Hk]].
      apply join_key_eqb_eq in Hk.
      exists (Reconcile.fill (Reconcile.both b a)). split.
      * apply In_combine_data; try assumption.
        exists (Reconcile.both b a). split; [|reflexivity].
        apply In_joined. right; left. exists b, a. auto.
      * simpl. exact Hk.
  - intros u Hu.
    apply In_combine_data in Hu as [m [Hm ->]]; try assumption.
    apply In_joined in Hm
      as [[b [Hb [_ ->]]]|[[b [a [Hb [_ [_ ->]]]]]|[a [Ha [_ ->]]]]].
    + left. exists b. auto.
    + left. exists b. auto.
    + right. exists a. auto.
Qed.

(** X13.  A key that both frames have gives a row that takes its peak
    rate, capacity and utilization from the BRAS row and its user count
    from the AAA row, each with the fill value where it is missing; when
    each frame has the key once, every row of the Unified Record with this
    key is that row. *)
Theorem X13_matched_rows_carry_both_sides
        (L : list Bras.Monthly) (R : list Aaa.Monthly)
        (b : Bras.Monthly) (a : Aaa.Monthly) :
  In b L -> In a R ->
  Reconcile.bras_key b = Reconcile.aaa_key a ->
  In (Reconcile.fill (Reconcile.both b a))
     (value (Reconcile.combine_data (DataFrame L) (DataFrame R)))
  /\ Reconcile.MaxSendTrafficRate (Reconcile.fill (Reconcile.both b a))
     = PyNum.fillna 0 (Bras.MaxSendTrafficRate b)
  /\ Reconcile.Total_Capacity (Reconcile.fill (Reconcile.both b a))
     = PyNum.fillna 100000 (Bras.Total_Capacity b)
  /\ Reconcile.Utilization_Pct (Reconcile.fill (Reconcile.both b a))
     = PyNum.fillna 0 (Bras.Utilization_Pct b)
  /\ Reconcile.AAA_Users (Reconcile.fill (Reconcile.both b a))
     = PyNum.fillna 0 (Aaa.AAA_Users a)
  /\ (NoDup (map Reconcile.bras_key L) ->
      NoDup (map Reconcile.aaa_key R) ->
      forall u,
        In u (value (Reconcile.combine_data (DataFrame L) (DataFrame R))) ->
        (Reconcile.Month u, Reconcile.Month_Name u, Reconcile.Location u)
        = Reconcile.bras_key b ->
        u = Reconcile.fill (Reconcile.both b a)).
Proof.
  intros Hb Ha Hk.
  assert (HL : L <> []) by (intros ->; contradiction).
  assert (HR : R <> []) by (intros ->; contradiction).
  split.
  { apply In_combine_data; try assumption.
    exists (Reconcile.both b a). split; [|reflexivity].
    apply In_joined. right; left. exists b, a. auto. }
  repeat (split; [reflexivity|]).
  intros HLnd HRnd u Hu Hkey.
  apply In_combine_data in Hu as [m [Hm ->]]; try assumption.
  apply In_joined in Hm
    as [[b' [Hb' [Hnil ->]]]|[[b' [a' [Hb' [Ha' [Hk' ->]]]]]|[a' [Ha' [Hun ->]]]]].
  - exfalso.
    assert (b' = b)
      by (apply (NoDup_map_In_inj Reconcile.bras_key L); auto).
    subst b'.
    assert (Hin : In a (Reconcile.matches_of b R)).
    { apply filter_In. split; [assumption|]. now apply join_key_eqb_eq. }
    now rewrite Hnil in Hin.
  - assert (b' = b)
      by (apply (NoDup_map_In_inj Reconcile.bras_key L); auto).
    subst b'.
    assert (a' = a).
    { apply (NoDup_map_In_inj Reconcile.aaa_key R); auto.
      rewrite <- Hk, <- Hk'. reflexivity. }
    now subst a'.
  - exfalso. apply (Hun b Hb). symmetry. exact Hkey.
Qed.

Lemma X12_witness :
  let b := Bras.mkMonthly 1743465600000000000 "Mandalay_BRAS01"
                          (Some 45000%Q) (Some 100000%Q)
                          (Some (45000 / 100000 * 100)%Q) "Apr 2025" in
  let a := Aaa.mkMonthly 1743465600000000000 "Apr 2025" "MDY_AAA"
                         (Some 12000%Q) in
  exists u,
    In u (value (Reconcile.combine_data (DataFrame [b]) (DataFrame [a])))
    /\ (Reconcile.Month u, Reconcile.Month_Name u, Reconcile.Location u)
       = Reconcile.aaa_key a.
Proof.
  intros b a.
  apply (proj1 (proj2 (X12_outer_join_keys [b] [a]
                         ltac:(discriminate) ltac:(discriminate)))).
  now left.
Defined.

Lemma X13_witness :
  let b := Bras.mkMonthly 1743465600000000000 "MDY_BRAS01"
                          (Some 45000%Q) (Some 100000%Q) None "Apr 2025" in
  let a := Aaa.mkMonthly 1743465600000000000 "Apr 2025" "MDY_BRAS01"
                         (Some 12000%Q) in
  In (Reconcile.fill (Reconcile.both b a))
     (value (Reconcile.combine_data (DataFrame [b]) (DataFrame [a]))).
Proof.
  intros b a.
  apply (X13_matched_rows_carry_both_sides [b] [a] b a).
  - now left.
  - now left.
  - reflexivity.
Defined.

(** ** The sub-series of the dashboard *)

Lemma prefix_append (p s : string) : String.prefix p (p ++ s) = true.
Proof.
  induction p as [|a p IH]; [apply prefix_empty|].
  cbn [append String.prefix].
  destruct (ascii_dec a a); [exact IH | congruence].
Qed.

Lemma slot_key_region (region : string) (s : Dashboard.slot) :
  PyStr.startswith region (Dashboard.slot_key region s) = true.
Proof. destruct s; apply prefix_append. Qed.

(** The rows with the key of a slot are rows of the region. *)
Lemma sub_series_region_rows (data : list Reconcile.Unified)
      (region : string) (s : Dashboard.slot) :
  Dashboard.sub_series (Dashboard.region_rows data region)
                       (Dashboard.slot_key region s)
  = Dashboard.sub_series data (Dashboard.slot_key region s).
Proof.
  unfold Dashboard.sub_series, Dashboard.region_rows.
  induction data as [|r data IH]; [reflexivity|].
  cbn [filter].
  destruct (String.eqb_spec (Reconcile.Location r)
                            (Dashboard.slot_key region s)) as [E|E].
  - rewrite E, slot_key_region. cbn [filter].
    rewrite E, String.eqb_refl. now rewrite IH.
  - destruct (PyStr.startswith region (Reconcile.Location r));
      [cbn [filter]|]; rewrite IH;
      destruct (String.eqb_spec (Reconcile.Location r)
                                (Dashboard.slot_key region s));
      congruence.
Qed.

Lemma sort_values_Month_sorted (l : list Reconcile.Unified) :
  StronglySorted (fun a b => Reconcile.Month a <= Reconcile.Month b) l ->
  Reconcile.sort_values_Month l = l.
Proof.
  unfold Reconcile.sort_values_Month, sort_by.
  induction 1 as [|a l Hs IH Hall]; [reflexivity|].
  cbn [fold_right]. rewrite IH.
  destruct l as [|y l']; [reflexivity|].
  cbn [insert_sorted]. unfold Reconcile.month_leb.
  apply Forall_inv in Hall. apply Z.leb_le in Hall. now rewrite Hall.
Qed.

(** X14.  On the Unified Record of the pipeline, the region filter and the
    second sort of the dashboard change nothing for a sub-series: the KPI
    tile of a slot is computed from all the rows with the key of the slot,
    and the line of a device has one point for each of these rows, in the
    order of the Unified Record. *)
Theorem X14_sub_series_of_pipeline
        (bras_src : source Bras.Row) (aaa_src : source Aaa.Row)
        (region : string) (s : Dashboard.slot) :
  let data := value (Reconcile.pipeline bras_src aaa_src) in
  let key := Dashboard.slot_key region s in
  Dashboard.kpi data region s
  = Dashboard.tile (Dashboard.slot_metric s) (Dashboard.slot_unit s)
                   (Dashboard.sub_series data key)
  /\ (s <> Dashboard.AAA ->
      forall ln,
        Dashboard.chart_line data region s = Some ln ->
        Dashboard.sub_series data key <> []
        /\ Dashboard.points ln
           = map (fun r =>
                    (Reconcile.Month_Name r,
                     (Reconcile.Utilization_Pct r
                      * (if Dashboard.scaled region key then 10 else 1))%Q))
                 (Dashboard.sub_series data key)).
Proof.
  intros data key. split.
  - unfold Dashboard.kpi. cbv zeta. now rewrite sub_series_region_rows.
  - intros _ ln. unfold Dashboard.chart_line, Dashboard.device_line.
    cbv zeta. rewrite sub_series_region_rows. fold key.
    rewrite sort_values_Month_sorted
      by (apply StronglySorted_filter, combine_data_sorted).
    destruct (Dashboard.sub_series data key) as [|r rows] eqn:Hsub;
      [discriminate|].
    intros H. inversion H; subst ln. split; [discriminate|reflexivity].
Qed.

Lemma X14_witness :
  let data := value (Reconcile.pipeline
                       (File [Bras.mkRow (Some "MDY, BRAS02")
                                         (Some "100GE1/0/1") "45,000"
                                         (Some "2025-04-15")])
                       (File [Scenario.aaa_row])) in
  exists ln,
    Dashboard.chart_line data "MDY" Dashboard.BRAS02 = Some ln
    /\ Dashboard.sub_series data "MDY_BRAS02" <> [].
Proof.
  intros data.
  destruct (Dashboard.chart_line data "MDY" Dashboard.BRAS02) as [ln|] eqn:E;
    [|vm_compute in E; discriminate E].
  exists ln. split; [reflexivity|].
  apply (proj2 (X14_sub_series_of_pipeline _ _ "MDY" Dashboard.BRAS02)
           ltac:(discriminate) ln E).
Defined.

(** ** Thousands separators in the user quantity *)

Lemma comma_lstrip (s t : string) :
  exists s', PyStr.lstrip (s ++ String "," t) = s' ++ String "," t.
Proof.
  induction s as [|a s IH]; [now exists ""|].
  cbn [append PyStr.lstrip].
  destruct (PyStr.is_space a); [exact IH|].
  now exists (String a s).
Qed.

Lemma rev_acc_append (t : string) :
  forall acc, PyStr.rev_acc t acc = PyStr.rev t ++ acc.
Proof.
  unfold PyStr.rev.
  induction t as [|a t IH]; intros acc; [reflexivity|].
  cbn [PyStr.rev_acc]. rewrite (IH (String a acc)), (IH (String a "")).
  now rewrite append_assoc.
Qed.

Lemma comma_rev (s t : string) :
  PyStr.rev (s ++ String "," t) = PyStr.rev t ++ String "," (PyStr.rev s).
Proof.
  unfold PyStr.rev at 1.
  assert (H : forall acc,
             PyStr.rev_acc (s ++ String "," t) acc
             = PyStr.rev_acc t (String "," (PyStr.rev_acc s acc))).
  { induction s as [|a s IH]; intros acc; [reflexivity|].
    cbn [append PyStr.rev_acc]. apply IH. }
  rewrite H, rev_acc_append. reflexivity.
Qed.

Lemma comma_strip (s t : string) :
  exists s' t', PyStr.strip (s ++ String "," t) = s' ++ String "," t'.
Proof.
  unfold PyStr.strip.
  destruct (comma_lstrip s t) as [s1 ->].
  rewrite comma_rev.
  destruct (comma_lstrip (PyStr.rev t) (PyStr.rev s1)) as [s2 ->].
  rewrite comma_rev. eauto.
Qed.

Lemma comma_lower (s t : string) :
  PyStr.lower (s ++ String "," t)
  = PyStr.lower s ++ String "," (PyStr.lower t).
Proof. induction s as [|a s IH]; simpl; [reflexivity | now rewrite IH]. Qed.

Lemma comma_not_nan (s t : string) : s ++ String "," t <> "nan".
Proof.
  destruct s as [|a [|b [|c [|d s]]]]; simpl; intros H; inversion H.
Qed.

Lemma comma_digits_value (s t : string) :
  forall acc, PyStr.digits_value acc (s ++ String "," t) = None.
Proof.
  induction s as [|a s IH]; intros acc; [reflexivity|].
  cbn [append PyStr.digits_value]. destruct (PyStr.is_digit a); auto.
Qed.

(** The comma stands before the first point or after it. *)
Lemma comma_split_first (s t : string) :
  let x := s ++ String "," t in
  let ip := PyStr.split_first "." x in
  (exists s' t', ip = s' ++ String "," t')
  \/ (exists s' t',
        PyStr.drop (S (String.length ip)) x = s' ++ String "," t').
Proof.
  induction s as [|a s IH]; cbv zeta.
  - left. exists "", (PyStr.split_first "." t). reflexivity.
  - cbn [append PyStr.split_first].
    destruct (Ascii.eqb a ".") eqn:Ha.
    + right. exists s, t. reflexivity.
    + destruct IH as [[s' [t' E]]|[s' [t' E]]].
      * left. exists (String a s'), t'. cbn [append]. now rewrite E.
      * right. exists s', t'. exact E.
Qed.

Lemma comma_unsigned_decimal (s t : string) :
  PyNum.unsigned_decimal (s ++ String "," t) = None.
Proof.
  unfold PyNum.unsigned_decimal. cbv zeta.
  destruct (_ =? _)%nat.
  - unfold PyStr.nat_digits. rewrite comma_digits_value.
    now destruct (s ++ String "," t).
  - destruct (comma_split_first s t) as [[s' [t' E]]|[s' [t' E]]];
      cbv zeta in E; rewrite E.
    + rewrite comma_digits_value. now destruct s'.
    + rewrite comma_digits_value.
      destruct (PyStr.split_first "." (s ++ String "," t)); [now destruct s'|].
      now destruct (PyStr.digits_value 0 _).
Qed.

(** The text after the sign that [float] finds. *)
Lemma sign_cases (x : string) :
  exists neg body,
    match x with
    | String "-" r => (true, r)
    | String "+" r => (false, r)
    | _ => (false, x)
    end = (neg, body)
    /\ (body = x \/ exists a, x = String a body /\ a <> ","%char).
Proof.
  destruct x as [|a rest]; [exists false, ""; auto|].
  destruct a as [[] [] [] [] [] [] [] []];
    do 2 eexists; (split; [reflexivity|]);
    first [ left; reflexivity
          | right; eexists; split; [reflexivity|discriminate] ].
Qed.

(** [float] raises on every text that holds a comma. *)
Lemma py_float_comma (s t : string) :
  PyNum.py_float (s ++ String "," t) = Raise ValueError.
Proof.
  unfold PyNum.py_float. cbv zeta.
  destruct (comma_strip s t) as [s1 [t1 ->]].
  rewrite comma_lower.
  destruct (String.eqb_spec (PyStr.lower s1 ++ String "," (PyStr.lower t1))
                            "nan") as [E|_];
    [now apply comma_not_nan in E|].
  destruct (sign_cases (s1 ++ String "," t1))
    as [neg [body [-> [->|[a [E Ha]]]]]].
  - now rewrite comma_unsigned_decimal.
  - destruct s1 as [|a' s1]; cbn [append] in E; inversion E; subst.
    + congruence.
    + now rewrite comma_unsigned_decimal.
Qed.

(** X15.  A user quantity written with a thousands separator is no number
    for the AAA loader, which does not remove commas as the BRAS loader
    does for the rate: the row is kept, its user count is missing, and the
    Unified Record shows 0 users for it, alone or joined with a BRAS
    row. *)
Theorem X15_comma_in_user_quantity_gives_zero
        (month loc s t : string) (m : Aaa.Monthly) :
  Aaa.monthly_row (Aaa.mkRow month loc (s ++ "," ++ t)) = Some m ->
  Aaa.AAA_Users m = None
  /\ Reconcile.AAA_Users (Reconcile.fill (Reconcile.right_only m)) = 0%Q
  /\ forall b,
       Reconcile.AAA_Users (Reconcile.fill (Reconcile.both b m)) = 0%Q.
Proof.
  assert (Hnan : PyNum.to_numeric_coerce (s ++ "," ++ t) = None).
  { unfold PyNum.to_numeric_coerce.
    change (s ++ "," ++ t) with (s ++ String "," t).
    now rewrite py_float_comma. }
  unfold Aaa.monthly_row.
  cbn [Aaa.Month_Year Aaa.AAA_Location Aaa.User_Quantity].
  rewrite Hnan.
  destruct (Aaa.parse_date _) as [ts|]; [|discriminate].
  intros H. inversion H; subst m. clear H.
  repeat split.
Qed.

Lemma X15_witness :
  exists m,
    Aaa.monthly_row (Aaa.mkRow "Apr-25" "MDY_Region" ("12" ++ "," ++ "000"))
    = Some m
    /\ Aaa.AAA_Users m = None.
Proof.
  eexists. split; [vm_compute; reflexivity|].
  apply (X15_comma_in_user_quantity_gives_zero
           "Apr-25" "MDY_Region" "12" "000").
  vm_compute. reflexivity.
Defined.

(** ** Month starts *)

Lemma month_start_of_civil (y m d : Z) :
  Calendar.valid_date y m d = true ->
  Calendar.to_timestamp (Calendar.to_period_M (Calendar.of_civil y m d 0 0 0))
  = Calendar.of_civil y m 1 0 0 0.
Proof.
  intros Hvalid.
  unfold Calendar.to_period_M, Calendar.year_of, Calendar.month_of,
    Calendar.date_of.
  rewrite of_civil_day, (civil_from_days_from_civil y m d Hvalid).
  reflexivity.
Qed.

Lemma of_civil_day_offset (y m d : Z) :
  Calendar.of_civil y m d 0 0 0
  = Calendar.of_civil y m 1 0 0 0 + (d - 1) * Calendar.ns_per_day.
Proof. unfold Calendar.of_civil, Calendar.days_from_civil. cbv zeta. ring. Qed.

(** X16.  Every month of the frame of the BRAS loader is the first instant
    of a calendar month: [to_period('M')] followed by [to_timestamp()]
    gives it again. *)
Theorem X16_bras_months_are_month_starts
        (rows : list Bras.Row) (df : list Bras.Monthly) (b : Bras.Monthly) :
  Bras.load_bras_frame rows = Ok (DataFrame df) ->
  In b df ->
  Calendar.to_timestamp (Calendar.to_period_M (Bras.Month b)) = Bras.Month b.
Proof.
  intros Hload Hb.
  destruct (proj1 (loaded_row rows df Hload b) Hb) as [k [Hk ->]].
  destruct (monthly_row_fields
              (map Bras.reading_of (filter Bras.is_100GE rows)) k)
    as [_ [HM _]].
  rewrite HM. now rewrite (loaded_key_month rows df Hload k Hk).
Qed.

Lemma X16_witness :
  let b := Bras.mkMonthly 1743465600000000000 "Mandalay_BRAS01"
                          (Some 45000%Q) (Some 100000%Q)
                          (Some (45000 / 100000 * 100)%Q) "Apr 2025" in
  Calendar.to_timestamp (Calendar.to_period_M (Bras.Month b)) = Bras.Month b.
Proof.
  intros b.
  apply (X16_bras_months_are_month_starts [Scenario.bras_row] [b] b).
  - vm_compute. reflexivity.
  - now left.
Defined.

(** X17.  The AAA loader does not bring a month to its first instant: the
    row of an ISO date keeps the day of the date in its month (midnight of
    that date), with the label of the month of the date; its month is a
    month start only when the day is 1. *)
Theorem X17_aaa_month_keeps_the_day (y m d : Z) (loc users : string) :
  1969 <= y <= 2068 ->
  Calendar.valid_date y m d = true ->
  exists a,
    Aaa.monthly_row (Aaa.mkRow (Encoding.iso_text y m d) loc users) = Some a
    /\ Aaa.Month a = Calendar.of_civil y m d 0 0 0
    /\ Aaa.Month_Name a = Calendar.month_label y m
    /\ (Calendar.to_timestamp (Calendar.to_period_M (Aaa.Month a))
        = Aaa.Month a <-> d = 1).
Proof.
  intros Hy Hvalid.
  destruct (valid_date_spec y m d Hvalid) as [Hm [Hd _]].
  assert (Hyear : Encoding.texts_in_year y = true).
  { apply (forall_below_spec Encoding.texts_in_year 7 1969).
    - exact texts_in_year_all.
    - change (2 ^ Z.of_nat 7) with 128. lia. }
  unfold Encoding.texts_in_year in Hyear.
  replace (2068 <? y) with false in Hyear
    by (symmetry; apply Z.ltb_ge; lia).
  rewrite orb_false_l, andb_true_iff in Hyear. destruct Hyear as [HY _].
  pose proof padded_days as Hpad. rewrite forallb_forall in Hpad.
  destruct (padded_spec _ _ HY) as [HlY [HaY HnY]].
  destruct (padded_spec _ _ (Hpad m (In_days m ltac:(lia))))
    as [HlM [HaM HnM]].
  destruct (padded_spec _ _ (Hpad d (In_days d Hd))) as [HlD [HaD HnD]].
  destruct (iso_readings _ _ _ y m d HlY HaY HnY HlM HaM HnM HlD HaD HnD
              Hvalid) as [Hrep [Hfloat [Hstrp Hdt]]].
  unfold Aaa.monthly_row.
  cbn [Aaa.Month_Year Aaa.AAA_Location Aaa.User_Quantity].
  unfold Encoding.iso_text. rewrite Hrep.
  unfold Aaa.parse_date, Aaa.try_serial.
  rewrite Hfloat. cbn [bind]. rewrite Hstrp, Hdt.
  rewrite (of_civil_in_bounds y m d Hy Hvalid).
  eexists. split; [reflexivity|].
  cbn [Aaa.Month Aaa.Month_Name].
  split; [reflexivity|]. split; [now apply strftime_of_civil|].
  rewrite (month_start_of_civil y m d Hvalid), (of_civil_day_offset y m d).
  change Calendar.ns_per_day with 86400000000000. lia.
Qed.

Lemma X17_witness :
  exists a,
    Aaa.monthly_row (Aaa.mkRow "2025-04-15" "MDY_Region" "12000") = Some a
    /\ Aaa.Month a = Calendar.of_civil 2025 4 15 0 0 0
    /\ Aaa.Month_Name a = "Apr 2025".
Proof.
  destruct (X17_aaa_month_keeps_the_day 2025 4 15 "MDY_Region" "12000")
    as [a [Ha [HM [HN _]]]].
  - lia.
  - reflexivity.
  - exists a. repeat split; assumption.
Defined.
